(** * Eventara backend: the Event aggregate and its route handlers

    A shallow embedding of [src/index.js] (the Express route handlers) and
    of the Mongoose model it requires as [./models/Event] (the schema file
    of the repository).

    - The [events] collection is a finite map from [_id] to document: the
      database keeps [_id] unique, [findById] is a lookup, a delete removes
      the key and [save] overwrites the whole document.
    - A handler is a function from the store and the request to a response
      and the store afterwards.  A [return res.status(..)] before [save]
      leaves the store as it was; an exception inside the [try] block is the
      [catch] branch, status 500, and the store as it was.
    - [Date.now()] and the [_id] Mongoose gives to a new subdocument are
      inputs of the handler (record [Env.t]).
    - Timestamps are milliseconds since the epoch, in [Z]; an [ObjectId] is a
      number; route parameters are well-formed ObjectIds (a malformed one
      makes the query throw a CastError, which this model leaves out).
    - [capacity] and [price] are integers: creation stores
      [parseInt(capacity) || 0], and the handlers below only compare
      [capacity] with a length. *)

From stdpp Require Import base decidable option list sorting gmap strings pretty.
From Stdlib Require Import ZArith Lia.

Local Open Scope string_scope.
Local Open Scope list_scope.
Local Open Scope nat_scope.

Abbreviation ObjectId := N (only parsing).

(** ** The schema: [sessionSchema], [participantSchema], [eventSchema] *)

Module Session.
Record t := mk {
  _id : ObjectId;
  title : string;
  description : option string;
  startTime : Z;
  endTime : Z;
  speaker : string;
  room : string;
  tags : list string
}.
End Session.

Module Participant.
Record t := mk {
  _id : ObjectId;
  userId : string;
  userName : string;
  userEmail : string;
  registeredAt : Z
}.
End Participant.

Module Event.
Record t := mk {
  title : string;
  description : string;
  startDate : Z;
  endDate : Z;
  location : string;
  capacity : Z;
  price : Z;
  image : string;
  organizerId : string;
  organizerName : string;
  organizerEmail : string;
  sessions : list Session.t;
  participants : list Participant.t;
  isPublic : bool;
  tags : list string;
  createdAt : Z;
  updatedAt : Z
}.

Definition with_participants (ps : list Participant.t) (e : t) : t :=
  mk (title e) (description e) (startDate e) (endDate e) (location e)
     (capacity e) (price e) (image e) (organizerId e) (organizerName e)
     (organizerEmail e) (sessions e) ps (isPublic e) (tags e)
     (createdAt e) (updatedAt e).

Definition with_sessions (ss : list Session.t) (e : t) : t :=
  mk (title e) (description e) (startDate e) (endDate e) (location e)
     (capacity e) (price e) (image e) (organizerId e) (organizerName e)
     (organizerEmail e) ss (participants e) (isPublic e) (tags e)
     (createdAt e) (updatedAt e).

Definition with_updatedAt (now : Z) (e : t) : t :=
  mk (title e) (description e) (startDate e) (endDate e) (location e)
     (capacity e) (price e) (image e) (organizerId e) (organizerName e)
     (organizerEmail e) (sessions e) (participants e) (isPublic e) (tags e)
     (createdAt e) now.
End Event.

(** ** Requests and responses *)

(** [req.auth]: [userId] is always there behind [authMiddleware];
    [req.auth.user?.name] and [req.auth.user?.email] may be undefined. *)
Module Auth.
Record t := mk {
  userId : string;
  name : option string;
  email : option string
}.
End Auth.

Module Env.
Record t := mk {
  now : Z;            (* Date.now() *)
  freshId : ObjectId  (* the _id of a subdocument created by this request *)
}.
End Env.

(** A body value that a handler turns into a date: JSON gives a number
    (here an integral one) or a string, a missing key reads as
    [undefined]. *)
Inductive JsValue :=
  | JUndefined
  | JNumber (n : Z)
  | JString (s : string).

(** The plain object [newSession] of the add-session handler: [title],
    [description], [speaker] and [room] are whatever the body had,
    [startTime] and [endTime] are [Date] objects ([None] is Invalid Date). *)
Module SessionObject.
Record t := mk {
  title : option string;
  description : option string;
  startTime : option Z;
  endTime : option Z;
  speaker : option string;
  room : option string;
  tags : list string
}.
End SessionObject.

Inductive Body :=
  | ErrorBody (error : string)                            (* { error } *)
  | SuccessBody                                           (* { success: true } *)
  | MembershipBody (message : string) (participants : nat)
      (* { success: true, message, participants } *)
  | EventBody (_id : ObjectId) (e : Event.t)
  | EventsBody (es : list (ObjectId * Event.t))
  | SessionBody (s : Session.t)
  | NewSessionBody (s : SessionObject.t)
  | NullBody.                                             (* null *)

Record Response := mkResponse { status : nat; body : Body }.

(** ** The collection and [save] *)

Abbreviation Store := (gmap N Event.t) (only parsing).

(** [required: true] on a String path rejects the empty string. *)
Definition required (s : string) : bool := bool_decide (s ≠ "").

Definition validateSession (s : Session.t) : bool := required (Session.title s).

Definition validateParticipant (p : Participant.t) : bool :=
  required (Participant.userId p).

(** Document validation as [save] runs it.  Mongoose validates the modified
    paths; on a document whose other paths were valid when it was loaded
    that is the validation of the whole document, which is what is written
    here.  The Date paths hold a timestamp by their type. *)
Definition validate (e : Event.t) : bool :=
  required (Event.title e) && required (Event.organizerId e)
  && forallb validateSession (Event.sessions e)
  && forallb validateParticipant (Event.participants e).

(** [event.save()]: validation, then the [pre('save')] hook sets [updatedAt],
    then the document is written.  [None] is the ValidationError. *)
Definition save (env : Env.t) (db : Store) (id : ObjectId) (e : Event.t)
  : option Store :=
  if validate e then Some (<[id := Event.with_updatedAt (Env.now env) e]> db)
  else None.

(** [x || d] on a possibly undefined string: the empty string is falsy. *)
Definition or_default (x : option string) (d : string) : string :=
  match x with
  | Some s => if bool_decide (s = "") then d else s
  | None => d
  end.

(** ** Membership: [POST /api/events/:id/join] and [.../leave] *)

Definition alreadyJoined (e : Event.t) (auth : Auth.t) : bool :=
  existsb (λ p, bool_decide (Participant.userId p = Auth.userId auth))
          (Event.participants e).

Definition joinEvent (env : Env.t) (db : Store) (id : ObjectId) (auth : Auth.t)
  : Response * Store :=
  match db !! id with
  | None => (mkResponse 404 (ErrorBody "Event not found"), db)
  | Some event =>
    if alreadyJoined event auth then
      (mkResponse 400 (ErrorBody "Already joined this event"), db)
    else if (Z.of_nat (length (Event.participants event)) >=? Event.capacity event)%Z then
      (mkResponse 400 (ErrorBody "Event is full"), db)
    else
      let p := Participant.mk (Env.freshId env) (Auth.userId auth)
                 (or_default (Auth.name auth) "Anonymous")
                 (or_default (Auth.email auth) "")
                 (Env.now env) in
      let event' := Event.with_participants (Event.participants event ++ [p]) event in
      match save env db id event' with
      | Some db' =>
        (mkResponse 200 (MembershipBody "Successfully joined event"
                           (length (Event.participants event'))), db')
      | None => (mkResponse 500 (ErrorBody "Failed to join event"), db)
      end
  end.

Definition leaveEvent (env : Env.t) (db : Store) (id : ObjectId) (auth : Auth.t)
  : Response * Store :=
  match db !! id with
  | None => (mkResponse 404 (ErrorBody "Event not found"), db)
  | Some event =>
    let event' :=
      Event.with_participants
        (filter (λ p, Participant.userId p ≠ Auth.userId auth)
                (Event.participants event)) event in
    match save env db id event' with
    | Some db' =>
      (mkResponse 200 (MembershipBody "Successfully left event"
                         (length (Event.participants event'))), db')
    | None => (mkResponse 500 (ErrorBody "Failed to leave event"), db)
    end
  end.

(** ** Deleting an event: [DELETE /api/events/:id] *)

(** [Event.findByIdAndDelete(req.params.id)]: the filter is the [_id] alone;
    [req.auth] is not read. *)
Definition deleteEvent (db : Store) (id : ObjectId) (auth : Auth.t)
  : Response * Store :=
  match db !! id with
  | None => (mkResponse 404 (ErrorBody "Event not found"), db)
  | Some _ => (mkResponse 200 SuccessBody, delete id db)
  end.

(** ** Listing public events: [GET /api/events/public] *)

(** [{ isPublic: true, organizerId: { $ne: req.auth.userId } }] *)
Definition publicFilter (auth : Auth.t) (d : ObjectId * Event.t) : Prop :=
  Event.isPublic d.2 = true ∧ Event.organizerId d.2 ≠ Auth.userId auth.

Global Instance publicFilter_dec auth d : Decision (publicFilter auth d).
Proof. unfold publicFilter. apply _. Defined.

(** [.sort({ createdAt: -1 })]: newest first. *)
Definition newestFirst (a b : ObjectId * Event.t) : Prop :=
  (Event.createdAt b.2 ≤ Event.createdAt a.2)%Z.

Global Instance newestFirst_dec a b : Decision (newestFirst a b).
Proof. unfold newestFirst. apply _. Defined.

Definition publicMatches (db : Store) (auth : Auth.t) : list (ObjectId * Event.t) :=
  merge_sort newestFirst (filter (publicFilter auth) (map_to_list db)).

Definition publicEvents (db : Store) (auth : Auth.t) : Response * Store :=
  (mkResponse 200 (EventsBody (take 20 (publicMatches db auth))), db).

(** ** Queries by session and organizer *)

Definition hasSession (sid : ObjectId) (e : Event.t) : bool :=
  existsb (λ s, bool_decide (Session._id s = sid)) (Event.sessions e).

(** [Event.findOne({ 'sessions._id': sid, organizerId: userId })] *)
Definition findOwnedBySession (db : Store) (sid : ObjectId) (auth : Auth.t)
  : option (ObjectId * Event.t) :=
  List.find (λ d, hasSession sid d.2
                  && bool_decide (Event.organizerId d.2 = Auth.userId auth))
            (map_to_list db).

(** [event.sessions.id(sid)]: the first subdocument with that [_id]. *)
Definition sessions_id (sid : ObjectId) (ss : list Session.t) : option Session.t :=
  List.find (λ s, bool_decide (Session._id s = sid)) ss.

(** The subdocument found by [sessions_id] is changed in place. *)
Fixpoint replaceSession (sid : ObjectId) (s' : Session.t) (ss : list Session.t)
  : list Session.t :=
  match ss with
  | [] => []
  | s :: rest =>
    if bool_decide (Session._id s = sid) then s' :: rest
    else s :: replaceSession sid s' rest
  end.

(** [subdoc.remove()] pulls from the parent array by [_id]. *)
Definition pullSession (sid : ObjectId) (ss : list Session.t) : list Session.t :=
  filter (λ s, Session._id s ≠ sid) ss.

(** The [trim: true] setter, on ASCII white space. *)
Fixpoint trimStart (s : string) : string :=
  match s with
  | String c s' => if Ascii.is_space c then trimStart s' else s
  | EmptyString => EmptyString
  end.

Definition trim (s : string) : string :=
  String.rev (trimStart (String.rev (trimStart s))).

(** ** Request bodies of the session and update routes *)

(** The body of [POST /api/events/:eventId/sessions], as destructured by the
    handler: a key that is missing reads as [undefined]. *)
Module SessionFields.
Record t := mk {
  title : option string;
  description : option string;
  startTime : JsValue;
  endTime : JsValue;
  speaker : option string;
  room : option string;
  tags : option (list string)
}.
End SessionFields.

(** [updateData] of [PUT /api/sessions/:id]: the body without [eventId].
    Only the keys of [sessionSchema] and [_id] reach the subdocument;
    [None] is a key the body does not have. *)
Module SessionPatch.
Record t := mk {
  _id : option ObjectId;
  title : option string;
  description : option string;
  startTime : option JsValue;
  endTime : option JsValue;
  speaker : option string;
  room : option string;
  tags : option (list string)
}.
End SessionPatch.

(** The body of [PUT /api/events/:id], restricted to the paths of
    [eventSchema] (strict mode drops other keys).  [updatedAt] is not here:
    the handler overrides it with [Date.now()]. *)
Module EventPatch.
Record t := mk {
  title : option string;
  description : option string;
  startDate : option JsValue;
  endDate : option JsValue;
  location : option string;
  capacity : option Z;
  price : option Z;
  image : option string;
  organizerId : option string;
  organizerName : option string;
  organizerEmail : option string;
  sessions : option (list Session.t);
  participants : option (list Participant.t);
  isPublic : option bool;
  tags : option (list string);
  createdAt : option JsValue
}.
End EventPatch.

(** The patched value of a path: the patch's when it has the key. *)
Definition patched {A} (new : option A) (old : A) : A := default old new.

Section Handlers.

(** [Date.parse] of the JavaScript engine on a string: the time value, or
    [None] for NaN.  The formats it accepts beyond ISO 8601 depend on the
    engine, so it is a parameter. *)
Variable Date_parse : string → option Z.

(** [new Date(v)]: [None] is Invalid Date.  A number is a time value when
    it is within 8.64e15 ms of the epoch. *)
Definition new_Date (v : JsValue) : option Z :=
  match v with
  | JUndefined => None
  | JNumber n =>
    if bool_decide (-8640000000000000 ≤ n ≤ 8640000000000000)%Z
    then Some n else None
  | JString s => Date_parse s
  end.

(** Mongoose's cast of a value set on a Date path: numbers and strings go
    through [new Date]; [None] is a CastError or a missing required date,
    either of which fails validation. *)
Definition castDate (v : JsValue) : option Z :=
  match v with
  | JString "" => None
  | _ => new_Date v
  end.

(** *** The rule for a session of a creation payload

    The items of [sessions] in the Joi [eventSchema] of
    [POST /api/events]: [title: Joi.string().required()],
    [startTime: Joi.date().iso().required()] and
    [endTime: Joi.date().iso().min(Joi.ref('startTime')).required()].  The
    test for the ISO 8601 format is Joi's, a parameter here. *)
Variable isIsoDate : string → bool.

Definition joiIsoDate (v : JsValue) : option Z :=
  match v with
  | JString s => if isIsoDate s then Date_parse s else None
  | _ => None
  end.

Definition sessionItemSchema (b : SessionFields.t) : bool :=
  match SessionFields.title b,
        joiIsoDate (SessionFields.startTime b),
        joiIsoDate (SessionFields.endTime b) with
  | Some t, Some st, Some en =>
    bool_decide (t ≠ "") && bool_decide (st ≤ en)%Z
  | _, _, _ => false
  end.

(** *** [POST /api/events/:eventId/sessions] *)

Definition newSession (b : SessionFields.t) : SessionObject.t :=
  SessionObject.mk (SessionFields.title b) (SessionFields.description b)
    (new_Date (SessionFields.startTime b)) (new_Date (SessionFields.endTime b))
    (SessionFields.speaker b) (SessionFields.room b)
    (default [] (SessionFields.tags b)).

(** [event.sessions.push(newSession)] casts the plain object to a
    subdocument: a fresh [_id], the schema defaults for [speaker] and
    [room].  [None]: a required path is missing or a date is invalid, which
    [save] reports as a ValidationError. *)
Definition castSession (fresh : ObjectId) (o : SessionObject.t)
  : option Session.t :=
  match SessionObject.title o, SessionObject.startTime o, SessionObject.endTime o with
  | Some t, Some st, Some en =>
    Some (Session.mk fresh t (SessionObject.description o) st en
            (default "TBD" (SessionObject.speaker o))
            (default "TBD" (SessionObject.room o))
            (SessionObject.tags o))
  | _, _, _ => None
  end.

Definition addSession (env : Env.t) (db : Store) (eventId : ObjectId)
    (auth : Auth.t) (b : SessionFields.t) : Response * Store :=
  match db !! eventId with
  | None => (mkResponse 404 (ErrorBody "Event not found"), db)
  | Some event =>
    if bool_decide (Event.organizerId event ≠ Auth.userId auth) then
      (mkResponse 403 (ErrorBody "Not authorized to modify this event"), db)
    else
      let o := newSession b in
      match castSession (Env.freshId env) o with
      | None => (mkResponse 500 (ErrorBody "Failed to create session"), db)
      | Some s =>
        match save env db eventId
                (Event.with_sessions (Event.sessions event ++ [s]) event) with
        | Some db' => (mkResponse 201 (NewSessionBody o), db')
        | None => (mkResponse 500 (ErrorBody "Failed to create session"), db)
        end
      end
  end.

(** *** [PUT /api/sessions/:id] *)

(** [Object.assign(session, updateData)]: every key of the patch is set on
    the subdocument, [_id] included.  [None]: a date does not cast. *)
Definition assignSession (s : Session.t) (u : SessionPatch.t)
  : option Session.t :=
  match from_option castDate (Some (Session.startTime s)) (SessionPatch.startTime u),
        from_option castDate (Some (Session.endTime s)) (SessionPatch.endTime u) with
  | Some st, Some en =>
    Some (Session.mk
            (patched (SessionPatch._id u) (Session._id s))
            (patched (SessionPatch.title u) (Session.title s))
            (match SessionPatch.description u with
             | Some d => Some d
             | None => Session.description s
             end)
            st en
            (patched (SessionPatch.speaker u) (Session.speaker s))
            (patched (SessionPatch.room u) (Session.room s))
            (patched (SessionPatch.tags u) (Session.tags s)))
  | _, _ => None
  end.

Definition updateSession (env : Env.t) (db : Store) (sid : ObjectId)
    (auth : Auth.t) (u : SessionPatch.t) : Response * Store :=
  match findOwnedBySession db sid auth with
  | None => (mkResponse 404 (ErrorBody "Session not found or not authorized"), db)
  | Some (eid, event) =>
    match sessions_id sid (Event.sessions event) with
    | None => (mkResponse 404 (ErrorBody "Session not found"), db)
    | Some session =>
      match assignSession session u with
      | None => (mkResponse 500 (ErrorBody "Failed to update session"), db)
      | Some session' =>
        match save env db eid
                (Event.with_sessions
                   (replaceSession sid session' (Event.sessions event)) event) with
        | Some db' => (mkResponse 200 (SessionBody session'), db')
        | None => (mkResponse 500 (ErrorBody "Failed to update session"), db)
        end
      end
    end
  end.

(** *** [DELETE /api/sessions/:id] *)

Definition removeSession (env : Env.t) (db : Store) (sid : ObjectId)
    (auth : Auth.t) : Response * Store :=
  match findOwnedBySession db sid auth with
  | None => (mkResponse 404 (ErrorBody "Session not found or not authorized"), db)
  | Some (eid, event) =>
    match sessions_id sid (Event.sessions event) with
    | None => (mkResponse 500 (ErrorBody "Failed to delete session"), db)
    | Some _ =>
      match save env db eid
              (Event.with_sessions (pullSession sid (Event.sessions event)) event) with
      | Some db' => (mkResponse 200 SuccessBody, db')
      | None => (mkResponse 500 (ErrorBody "Failed to delete session"), db)
      end
    end
  end.

(** *** [PUT /api/events/:id] *)

(** The update document [{ ...req.body, updatedAt: Date.now() }] applied as
    a [$set]: each key of the body replaces the stored path, [organizerId]
    like any other; [title] and [description] pass the [trim] setter.
    [None]: a date does not cast. *)
Definition applyPatch (now : Z) (u : EventPatch.t) (e : Event.t)
  : option Event.t :=
  match from_option castDate (Some (Event.startDate e)) (EventPatch.startDate u),
        from_option castDate (Some (Event.endDate e)) (EventPatch.endDate u),
        from_option castDate (Some (Event.createdAt e)) (EventPatch.createdAt u) with
  | Some sd, Some ed, Some ca =>
    Some (Event.mk
            (patched (trim <$> EventPatch.title u) (Event.title e))
            (patched (trim <$> EventPatch.description u) (Event.description e))
            sd ed
            (patched (EventPatch.location u) (Event.location e))
            (patched (EventPatch.capacity u) (Event.capacity e))
            (patched (EventPatch.price u) (Event.price e))
            (patched (EventPatch.image u) (Event.image e))
            (patched (EventPatch.organizerId u) (Event.organizerId e))
            (patched (EventPatch.organizerName u) (Event.organizerName e))
            (patched (EventPatch.organizerEmail u) (Event.organizerEmail e))
            (patched (EventPatch.sessions u) (Event.sessions e))
            (patched (EventPatch.participants u) (Event.participants e))
            (patched (EventPatch.isPublic u) (Event.isPublic e))
            (patched (EventPatch.tags u) (Event.tags e))
            ca now)
  | _, _, _ => None
  end.

(** [Event.findByIdAndUpdate(id, update, { new: true, runValidators: true })]:
    [None] is a thrown CastError or ValidationError; otherwise the store
    afterwards and the updated document. *)
Definition findByIdAndUpdate (now : Z) (db : Store) (id : ObjectId)
    (u : EventPatch.t) : option (Store * option Event.t) :=
  match db !! id with
  | None => Some (db, None)
  | Some e =>
    match applyPatch now u e with
    | None => None
    | Some e' =>
      if validate e' then Some (<[id := e']> db, Some e') else None
    end
  end.

Definition updateEvent (env : Env.t) (db : Store) (id : ObjectId)
    (auth : Auth.t) (u : EventPatch.t) : Response * Store :=
  match db !! id with
  | None => (mkResponse 404 (ErrorBody "Event not found or not authorized"), db)
  | Some event =>
    if bool_decide (Event.organizerId event = Auth.userId auth) then
      match findByIdAndUpdate (Env.now env) db id u with
      | Some (db', Some updatedEvent) =>
        (mkResponse 200 (EventBody id updatedEvent), db')
      | Some (db', None) => (mkResponse 200 NullBody, db')
      | None => (mkResponse 500 (ErrorBody "Failed to update event"), db)
      end
    else (mkResponse 404 (ErrorBody "Event not found or not authorized"), db)
  end.

End Handlers.

(** ** Reading: [GET /api/events], [GET /api/events/joined], [GET /api/events/:id] *)

(** [{ organizerId: req.auth.userId }] *)
Definition ownedFilter (auth : Auth.t) (d : ObjectId * Event.t) : Prop :=
  Event.organizerId d.2 = Auth.userId auth.

Global Instance ownedFilter_dec auth d : Decision (ownedFilter auth d).
Proof. unfold ownedFilter. apply _. Defined.

(** [Event.find({ organizerId }).sort({ createdAt: -1 })]: no [limit]. *)
Definition ownedMatches (db : Store) (auth : Auth.t) : list (ObjectId * Event.t) :=
  merge_sort newestFirst (filter (ownedFilter auth) (map_to_list db)).

Definition ownedEvents (db : Store) (auth : Auth.t) : Response * Store :=
  (mkResponse 200 (EventsBody (ownedMatches db auth)), db).

(** [{ 'participants.userId': req.auth.userId }]: some element of the array
    has that [userId]. *)
Definition joinedFilter (auth : Auth.t) (d : ObjectId * Event.t) : Prop :=
  Auth.userId auth ∈ Participant.userId <$> Event.participants d.2.

Global Instance joinedFilter_dec auth d : Decision (joinedFilter auth d).
Proof. unfold joinedFilter. apply _. Defined.

Definition joinedMatches (db : Store) (auth : Auth.t) : list (ObjectId * Event.t) :=
  merge_sort newestFirst (filter (joinedFilter auth) (map_to_list db)).

Definition joinedEvents (db : Store) (auth : Auth.t) : Response * Store :=
  (mkResponse 200 (EventsBody (joinedMatches db auth)), db).

(** [Event.findById(req.params.id)]: the caller is not read. *)
Definition getEvent (db : Store) (id : ObjectId) (auth : Auth.t)
  : Response * Store :=
  match db !! id with
  | None => (mkResponse 404 (ErrorBody "Event not found"), db)
  | Some event => (mkResponse 200 (EventBody id event), db)
  end.

(** ** Creating an event: [POST /api/events] *)

(** A session of the value that the Joi [eventSchema] returns: with
    [stripUnknown] only the three keys of the item schema are left. *)
Module JoiSession.
Record t := mk {
  title : string;
  startTime : Z;
  endTime : Z
}.
End JoiSession.

(** The [value] of [eventSchema.validate(req.body, ...)]: the keys of the
    schema, dates converted, [capacity] and [price] defaulted to 0; a key
    without a default may be undefined. *)
Module EventValue.
Record t := mk {
  title : string;
  description : option string;
  startDate : Z;
  endDate : Z;
  location : option string;
  capacity : Z;
  price : Z;
  image : option string;
  sessions : option (list JoiSession.t);
  isPublic : option bool
}.
End EventValue.

(** An entry of [error.details]: the path (array indices as text), the
    message and [context.value], of whatever JSON type [V]. *)
Record JoiDetail (V : Type) := mkJoiDetail {
  detail_path : list string;
  detail_message : string;
  detail_value : option V
}.
Arguments mkJoiDetail {V}.
Arguments detail_path {V}.
Arguments detail_message {V}.
Arguments detail_value {V}.

(** [{ error, value }] of the validation: the handler reads [value] only
    when there is no [error]. *)
Inductive JoiResult (V : Type) :=
  | JoiError (details : list (JoiDetail V))
  | JoiValue (value : EventValue.t).
Arguments JoiError {V}.
Arguments JoiValue {V}.

(** [{ field, message, value }] of the 400 answer. *)
Record FieldError (V : Type) := mkFieldError {
  field : string;
  message : string;
  value : option V
}.
Arguments mkFieldError {V}.
Arguments field {V}.
Arguments message {V}.
Arguments value {V}.

Inductive CreateBody (V : Type) :=
  | JoiFailedBody (details : list (FieldError V))
      (* { error: 'Validation failed', details: [...] } *)
  | CreateErrorBody (error : string)                     (* { error } *)
  | SchemaFailedBody (paths : list string)
      (* { error: 'Validation failed', details: error.errors }, by its keys *)
  | CreatedBody (_id : ObjectId) (event : Event.t).
      (* { success: true, event, sessions: event.sessions } *)
Arguments JoiFailedBody {V}.
Arguments CreateErrorBody {V}.
Arguments SchemaFailedBody {V}.
Arguments CreatedBody {V}.

Record CreateResponse (V : Type) := mkCreateResponse {
  create_status : nat;
  create_body : CreateBody V
}.
Arguments mkCreateResponse {V}.
Arguments create_status {V}.
Arguments create_body {V}.

(** [d => ({ field: d.path.join('.'), message: d.message, value: d.context?.value })] *)
Definition toFieldError {V} (d : JoiDetail V) : FieldError V :=
  mkFieldError (String.concat "." (detail_path d)) (detail_message d)
               (detail_value d).

(** A session of the validated value cast by [new Event({ ... })]: an
    [_id] of its own and the schema defaults. *)
Definition castJoiSession (sessionId : nat → ObjectId) (i : nat)
    (s : JoiSession.t) : Session.t :=
  Session.mk (sessionId i) (JoiSession.title s) None
             (JoiSession.startTime s) (JoiSession.endTime s) "TBD" "TBD" [].

(** [parseInt(n) || 0] and [parseFloat(n) || 0] on an integral number (below
    1e21 in absolute value, where [parseInt] reads all its digits). *)
Definition number_or_zero (n : Z) : Z := if bool_decide (n = 0%Z) then 0%Z else n.

(** The document [new Event({ ... })] of the create handler; the [trim]
    setters of the schema run on [title] and [description]. *)
Definition newEvent (env : Env.t) (sessionId : nat → ObjectId) (auth : Auth.t)
    (v : EventValue.t) : Event.t :=
  Event.mk
    (trim (trim (EventValue.title v)))
    (trim (or_default (trim <$> EventValue.description v) ""))
    (EventValue.startDate v) (EventValue.endDate v)
    (or_default (trim <$> EventValue.location v) "TBD")
    (number_or_zero (EventValue.capacity v))
    (number_or_zero (EventValue.price v))
    (or_default (trim <$> EventValue.image v) "")
    (Auth.userId auth)
    (or_default (Auth.name auth) "Anonymous")
    (or_default (Auth.email auth) "")
    (imap (castJoiSession sessionId) (default [] (EventValue.sessions v)))
    []
    (default false (EventValue.isPublic v))
    []
    (Env.now env) (Env.now env).

(** The keys of the ValidationError of [newEvent.validate()]. *)
Definition schemaErrors (e : Event.t) : list string :=
  (if required (Event.title e) then [] else ["title"])
  ++ (if required (Event.organizerId e) then [] else ["organizerId"])
  ++ mjoin (imap (λ i s, if validateSession s then []
                         else ["sessions." +:+ pretty i +:+ ".title"])
                 (Event.sessions e))
  ++ mjoin (imap (λ i p, if validateParticipant p then []
                         else ["participants." +:+ pretty i +:+ ".userId"])
                 (Event.participants e)).

(** The handler after [eventSchema.validate]: [Env.freshId] is the [_id] of
    the new document, [sessionId i] the one of its [i]-th session.  A
    document already stored under the new [_id] is the duplicate-key error
    of the insert. *)
Definition createEvent {V} (env : Env.t) (sessionId : nat → ObjectId)
    (db : Store) (auth : Auth.t) (r : JoiResult V)
  : CreateResponse V * Store :=
  match r with
  | JoiError details =>
    (mkCreateResponse 400 (JoiFailedBody (toFieldError <$> details)), db)
  | JoiValue v =>
    if bool_decide (EventValue.title v = "")
       || bool_decide (trim (EventValue.title v) = "") then
      (mkCreateResponse 400 (CreateErrorBody "Title is required"), db)
    else
      let e := newEvent env sessionId auth v in
      if validate e then
        match db !! Env.freshId env with
        | None =>
          (mkCreateResponse 201 (CreatedBody (Env.freshId env) e),
           <[Env.freshId env := e]> db)
        | Some _ =>
          (mkCreateResponse 500 (CreateErrorBody "Failed to create event"), db)
        end
      else (mkCreateResponse 400 (SchemaFailedBody (schemaErrors e)), db)
  end.



(** ** Notions used in the statements *)

(** What the leave handler keeps: the participants of another userId. *)
Definition stayers (auth : Auth.t) (e : Event.t) : list Participant.t :=
  filter (λ p, Participant.userId p ≠ Auth.userId auth) (Event.participants e).

(** The organizer of every stored event. *)
Definition organizers (db : gmap N Event.t) : gmap N string :=
  Event.organizerId <$> db.

(** The session identifiers of every stored event, in order. *)
Definition sessionIds (db : gmap N Event.t) : gmap N (list N) :=
  (λ e, Session._id <$> Event.sessions e) <$> db.

(** Every stored document passes the validators of the schema. *)
Definition validStore (db : gmap N Event.t) : Prop :=
  map_Forall (λ _ e, validate e = true) db.

(** A sequence of join requests for one event, each with its own
    [Date.now()] and fresh [_id]: the answers in order and the store at the
    end. *)
Fixpoint joinAll (db : gmap N Event.t) (id : N) (rs : list (Env.t * Auth.t))
  : list Response * gmap N Event.t :=
  match rs with
  | [] => ([], db)
  | r :: rs' =>
    let out := joinEvent r.1 db id r.2 in
    let rest := joinAll out.2 id rs' in
    (out.1 :: rest.1, rest.2)
  end.

(** [n] successful join answers, the first one reporting [count + 1]. *)
Fixpoint joinedAnswers (count n : nat) : list Response :=
  match n with
  | O => []
  | S n' =>
    mkResponse 200 (MembershipBody "Successfully joined event" (S count))
    :: joinedAnswers (S count) n'
  end.

(** The participant that a successful join appends. *)
Definition joiner (env : Env.t) (auth : Auth.t) : Participant.t :=
  Participant.mk (Env.freshId env) (Auth.userId auth)
                 (or_default (Auth.name auth) "Anonymous")
                 (or_default (Auth.email auth) "")
                 (Env.now env).

(** The userIds of the participants of an event, in order. *)
Definition userIds (e : Event.t) : list string :=
  Participant.userId <$> Event.participants e.

(** An event without what the membership routes write, and without what
    the session routes write. *)
Definition membershipErased (e : Event.t) : Event.t :=
  Event.with_updatedAt 0 (Event.with_participants [] e).

Definition sessionsErased (e : Event.t) : Event.t :=
  Event.with_updatedAt 0 (Event.with_sessions [] e).

(** The patch [{ capacity: c }] and the document it makes. *)
Definition capacityPatch (c : Z) : EventPatch.t :=
  EventPatch.mk None None None None None (Some c) None None None None None None
                None None None None.

Definition withCapacity (c now : Z) (e : Event.t) : Event.t :=
  Event.mk (Event.title e) (Event.description e) (Event.startDate e)
           (Event.endDate e) (Event.location e) c (Event.price e)
           (Event.image e) (Event.organizerId e) (Event.organizerName e)
           (Event.organizerEmail e) (Event.sessions e) (Event.participants e)
           (Event.isPublic e) (Event.tags e) (Event.createdAt e) now.

(** ** Sample requests and documents *)

Definition alice : Auth.t :=
  Auth.mk "user_alice" (Some "Alice") (Some "alice@example.org").
Definition bob : Auth.t := Auth.mk "user_bob" None None.
Definition org1 : Auth.t := Auth.mk "org1" None None.

Definition env0 : Env.t := Env.mk 1700000000000 501.

Definition keynote : Session.t :=
  Session.mk 7 "Keynote" None 10 20 "TBD" "TBD" [].

(** An event of [org1] with one session and no participant yet. *)
Definition meetup (capacity : Z) : Event.t :=
  Event.mk "Meetup" "" 0 100 "TBD" capacity 0 "" "org1" "Anonymous" ""
           [keynote] [] false [] 1000 1000.

Definition db0 : gmap N Event.t := {[ 1%N := meetup 0 ]}.

(** The same event with capacity 5 once [alice] has joined. *)
Definition aliceIn : Participant.t :=
  Participant.mk 500 "user_alice" "Alice" "alice@example.org" 1500.

Definition party : Event.t := Event.with_participants [aliceIn] (meetup 5).

Definition db1 : gmap N Event.t := {[ 1%N := party ]}.

(** Twenty-five public events of [org1], created at times 1 to 25. *)
Definition publicAt (i : nat) : Event.t :=
  Event.mk "Open day" "" 0 100 "TBD" 0 0 "" "org1" "Anonymous" ""
           [] [] true [] (Z.of_nat i) (Z.of_nat i).

Definition crowd : gmap N Event.t :=
  list_to_map ((λ i, (N.of_nat i, publicAt i)) <$> seq 1 25).

(** Patches with no key, or with a single one. *)
Definition noEventPatch : EventPatch.t :=
  EventPatch.mk None None None None None None None None None None None None
                None None None None.

Definition takeover : EventPatch.t :=
  EventPatch.mk None None None None None None None None (Some "mallory") None
                None None None None None None.

Definition noSessionPatch : SessionPatch.t :=
  SessionPatch.mk None None None None None None None None.

Definition renumber : SessionPatch.t :=
  SessionPatch.mk (Some 99%N) None None None None None None None.

Definition endAt (v : JsValue) : SessionPatch.t :=
  SessionPatch.mk None None None None (Some v) None None None.

(** A session body whose end is before its start. *)
Definition backwards : SessionFields.t :=
  SessionFields.mk (Some "Panel") None (JNumber 20) (JNumber 10) None None None.

(** [keynote] with the end moved before its start, and the session that
    [backwards] makes. *)
Definition keynoteEnds5 : Session.t :=
  Session.mk 7 "Keynote" None 10 5 "TBD" "TBD" [].

Definition panel : Session.t :=
  Session.mk 501 "Panel" None 20 10 "TBD" "TBD" [].

(** A [Date.parse] that knows two ISO 8601 strings, and the ISO test that
    goes with it. *)
Definition sampleParse (s : string) : option Z :=
  if bool_decide (s = "1970-01-01T00:00:00.000Z") then Some 0%Z
  else if bool_decide (s = "1970-01-01T00:00:01.000Z") then Some 1000%Z
  else None.

Definition sampleIso (s : string) : bool := bool_decide (is_Some (sampleParse s)).

(** A session body in ISO 8601 strings whose end is before its start. *)
Definition backwardsIso : SessionFields.t :=
  SessionFields.mk (Some "Panel") None
    (JString "1970-01-01T00:00:01.000Z") (JString "1970-01-01T00:00:00.000Z")
    None None None.

(** A validated creation value with one session, and identifiers for its
    sessions. *)
Definition launch : EventValue.t :=
  EventValue.mk "Launch" (Some "Our launch") 100 200 None 0 0 None
                (Some [JoiSession.mk "Intro" 100 150]) (Some true).

Definition sessionIdsFrom (base : N) (i : nat) : N := (base + N.of_nat i)%N.

(** A store with one document, under the [_id] 1. *)
Definition dbOf (e : Event.t) : gmap N Event.t := {[ 1%N := e ]}.

(** * Properties *)

(** ** [save] and the queries *)

Lemma validate_with_updatedAt now e :
  validate (Event.with_updatedAt now e) = validate e.
Proof. reflexivity. Qed.

Lemma save_Some env (db : Store) id e :
  validate e = true →
  save env db id e = Some (<[id := Event.with_updatedAt (Env.now env) e]> db).
Proof. intros Hv. unfold save. by rewrite Hv. Qed.

Lemma save_inv env (db db' : Store) id e :
  save env db id e = Some db' →
  validate e = true ∧ db' = <[id := Event.with_updatedAt (Env.now env) e]> db.
Proof.
  unfold save. destruct (validate e) eqn:Hv; [|done].
  intros [= <-]. done.
Qed.

(** Overwriting a document with one of the same organizer changes no
    organizer in the collection. *)
Lemma save_organizerId env (db db' : Store) id e e' :
  db !! id = Some e →
  Event.organizerId e' = Event.organizerId e →
  save env db id e' = Some db' →
  ∀ k, Event.organizerId <$> db' !! k = Event.organizerId <$> db !! k.
Proof.
  intros Hid Horg [_ ->]%save_inv k.
  destruct (decide (id = k)) as [<-|Hne].
  - rewrite lookup_insert_eq, Hid. simpl. by f_equal.
  - by rewrite lookup_insert_ne.
Qed.

Lemma find_all_false {A} (f : A → bool) (l : list A) :
  (∀ x, x ∈ l → f x = false) → List.find f l = None.
Proof.
  induction l as [|x l IH]; intros Hall; [done|].
  simpl. rewrite (Hall x) by constructor.
  apply IH. intros y Hy. apply Hall. by constructor.
Qed.

Lemma findOwnedBySession_Some (db : Store) sid auth k e :
  findOwnedBySession db sid auth = Some (k, e) →
  db !! k = Some e ∧ hasSession sid e = true
  ∧ Event.organizerId e = Auth.userId auth.
Proof.
  unfold findOwnedBySession. intros [Hin Hf]%List.find_some.
  apply list_elem_of_In, elem_of_map_to_list in Hin.
  simpl in Hf. apply andb_true_iff in Hf as [Hs Ho].
  apply bool_decide_eq_true in Ho. done.
Qed.

Lemma findOwnedBySession_None (db : Store) sid auth :
  (∀ k e, db !! k = Some e → hasSession sid e = true →
          Event.organizerId e ≠ Auth.userId auth) →
  findOwnedBySession db sid auth = None.
Proof.
  intros Hnot. apply find_all_false. intros [k e] Hin%elem_of_map_to_list.
  simpl. destruct (hasSession sid e) eqn:Hs; [|done].
  simpl. apply bool_decide_eq_false. by eapply Hnot.
Qed.

Lemma sessions_id_Some sid ss s :
  sessions_id sid ss = Some s → s ∈ ss ∧ Session._id s = sid.
Proof.
  unfold sessions_id. intros [Hin Hf]%List.find_some.
  apply list_elem_of_In in Hin. by apply bool_decide_eq_true in Hf.
Qed.

Lemma alreadyJoined_true e auth :
  alreadyJoined e auth = true ↔
  Auth.userId auth ∈ Participant.userId <$> Event.participants e.
Proof.
  unfold alreadyJoined. rewrite existsb_exists, list_elem_of_fmap.
  split.
  - intros (p & Hin%list_elem_of_In & Heq%bool_decide_eq_true). eauto.
  - intros (p & Heq & Hin). exists p. split; [by apply list_elem_of_In|].
    by apply bool_decide_eq_true.
Qed.

Lemma alreadyJoined_false e auth :
  alreadyJoined e auth = false ↔
  Auth.userId auth ∉ Participant.userId <$> Event.participants e.
Proof.
  rewrite <-alreadyJoined_true. destruct (alreadyJoined e auth); naive_solver.
Qed.

(** ** Joining *)

Lemma joinEvent_full_iff env (db : Store) id e auth :
  db !! id = Some e →
  alreadyJoined e auth = false →
  (joinEvent env db id auth).1 = mkResponse 400 (ErrorBody "Event is full")
  ↔ (Event.capacity e ≤ Z.of_nat (length (Event.participants e)))%Z.
Proof.
  intros Hid Hnot. unfold joinEvent. rewrite Hid, Hnot.
  destruct (Z.geb_spec (Z.of_nat (length (Event.participants e)))
                       (Event.capacity e)) as [Hge|Hlt].
  - simpl. split; [lia|done].
  - split; [|lia]. destruct (save _ _ _ _); simpl; discriminate.
Qed.

(** C1: the capacity check of the join handler is
    [participants.length >= capacity] with no guard for capacity 0, so on
    every event of capacity 0 a caller who has not joined is answered
    "Event is full" and the store is as before. *)
Theorem joinEvent_capacity_zero_is_full env (db : Store) id e auth :
  db !! id = Some e →
  Event.capacity e = 0%Z →
  alreadyJoined e auth = false →
  joinEvent env db id auth = (mkResponse 400 (ErrorBody "Event is full"), db).
Proof.
  intros Hid Hcap Hnot. unfold joinEvent. rewrite Hid, Hnot, Hcap.
  destruct (Z.geb_spec (Z.of_nat (length (Event.participants e))) 0) as [_|Hlt];
    [done|lia].
Qed.

Lemma joinEvent_capacity_zero_is_full_witness :
  db0 !! 1%N = Some (meetup 0)
  ∧ Event.capacity (meetup 0) = 0%Z
  ∧ alreadyJoined (meetup 0) alice = false
  ∧ joinEvent env0 db0 1 alice
    = (mkResponse 400 (ErrorBody "Event is full"), db0).
Proof.
  assert (H1 : db0 !! 1%N = Some (meetup 0)) by reflexivity.
  assert (H2 : Event.capacity (meetup 0) = 0%Z) by reflexivity.
  assert (H3 : alreadyJoined (meetup 0) alice = false) by reflexivity.
  refine (conj H1 (conj H2 (conj H3 _))).
  exact (joinEvent_capacity_zero_is_full env0 db0 1%N (meetup 0) alice H1 H2 H3).
Defined.

(** C6: a caller whose userId is already among the participants is answered
    400 "Already joined this event", whatever the capacity, and the store
    (so the participant set and its count) is as before. *)
Theorem joinEvent_already_member env (db : Store) id e auth :
  db !! id = Some e →
  Auth.userId auth ∈ Participant.userId <$> Event.participants e →
  joinEvent env db id auth
  = (mkResponse 400 (ErrorBody "Already joined this event"), db).
Proof.
  intros Hid Hin%alreadyJoined_true. unfold joinEvent. by rewrite Hid, Hin.
Qed.

Lemma joinEvent_already_member_witness :
  db1 !! 1%N = Some party
  ∧ Auth.userId alice ∈ (Participant.userId <$> Event.participants party)
  ∧ joinEvent env0 db1 1 alice
    = (mkResponse 400 (ErrorBody "Already joined this event"), db1).
Proof.
  assert (H1 : db1 !! 1%N = Some party) by reflexivity.
  assert (H2 : Auth.userId alice ∈ Participant.userId <$> Event.participants party)
    by (simpl; apply list_elem_of_here).
  refine (conj H1 (conj H2 _)).
  exact (joinEvent_already_member env0 db1 1%N party alice H1 H2).
Defined.

(** ** Leaving *)

Lemma forallb_filter_true {A} (f : A → bool) (P : A → Prop)
    `{!∀ x, Decision (P x)} (l : list A) :
  forallb f l = true → forallb f (filter P l) = true.
Proof.
  induction l as [|x l IH]; [done|]. simpl.
  intros [Hx Hl]%andb_true_iff. rewrite filter_cons.
  destruct (decide (P x)); simpl; [rewrite Hx|]; auto.
Qed.

Lemma validate_leave e (P : Participant.t → Prop) `{!∀ p, Decision (P p)} :
  validate e = true →
  validate (Event.with_participants (filter P (Event.participants e)) e) = true.
Proof.
  unfold validate. simpl.
  intros [[[Ht Ho]%andb_true_iff Hs]%andb_true_iff Hp]%andb_true_iff.
  rewrite Ht, Ho, Hs. simpl. by apply forallb_filter_true.
Qed.

(** C7: on a stored event the leave handler answers 200 with the count of
    the participants that are left, none of whom has the caller's userId;
    it has no 4xx answer at all.  When the caller had not joined, the
    participants, and so the reported count, are those from before. *)
Theorem leaveEvent_succeeds env (db : Store) id e auth :
  db !! id = Some e →
  validate e = true →
  leaveEvent env db id auth
  = (mkResponse 200 (MembershipBody "Successfully left event"
                       (length (stayers auth e))),
     <[id := Event.with_updatedAt (Env.now env)
               (Event.with_participants (stayers auth e) e)]> db)
  ∧ (Auth.userId auth ∉ Participant.userId <$> stayers auth e)
  ∧ (∀ p, p ∈ stayers auth e ↔
          (p ∈ Event.participants e ∧ Participant.userId p ≠ Auth.userId auth))
  ∧ (alreadyJoined e auth = false →
     stayers auth e = Event.participants e
     ∧ length (stayers auth e) = length (Event.participants e)).
Proof.
  intros Hid Hv. split; [|split; [|split]].
  - unfold leaveEvent. rewrite Hid. fold (stayers auth e).
    rewrite save_Some; [done|]. by apply validate_leave.
  - rewrite list_elem_of_fmap. intros (p & Heq & Hin).
    apply list_elem_of_filter in Hin as [Hne _]. by apply Hne.
  - intros p. unfold stayers. rewrite list_elem_of_filter. tauto.
  - intros Hnot%alreadyJoined_false.
    assert (stayers auth e = Event.participants e) as ->; [|done].
    unfold stayers. revert Hnot.
    induction (Event.participants e) as [|p ps IH]; [done|].
    rewrite fmap_cons, not_elem_of_cons. intros [Hp Hps].
    rewrite filter_cons_True by done. f_equal. by apply IH.
Qed.

Lemma leaveEvent_succeeds_witness :
  db1 !! 1%N = Some party
  ∧ validate party = true
  ∧ alreadyJoined party bob = false
  ∧ leaveEvent env0 db1 1 bob
    = (mkResponse 200 (MembershipBody "Successfully left event"
                         (length (stayers bob party))),
       <[1%N := Event.with_updatedAt (Env.now env0)
                  (Event.with_participants (stayers bob party) party)]> db1)
  ∧ length (stayers bob party) = length (Event.participants party).
Proof.
  assert (H1 : db1 !! 1%N = Some party) by reflexivity.
  assert (H2 : validate party = true) by reflexivity.
  assert (H3 : alreadyJoined party bob = false) by reflexivity.
  refine (conj H1 (conj H2 (conj H3 (conj _ _)))).
  - exact (proj1 (leaveEvent_succeeds env0 db1 1%N party bob H1 H2)).
  - exact (proj2 (proj2 (proj2 (proj2
             (leaveEvent_succeeds env0 db1 1%N party bob H1 H2))) H3)).
Defined.

(** The leave handler has no 4xx answer for a stored event, valid or not. *)
Lemma leaveEvent_status env (db : Store) id e auth :
  db !! id = Some e →
  status (leaveEvent env db id auth).1 = 200
  ∨ status (leaveEvent env db id auth).1 = 500.
Proof.
  intros Hid. unfold leaveEvent. rewrite Hid.
  destruct (save _ _ _ _); simpl; auto.
Qed.

(** ** Deleting *)

(** C5: the delete handler never reads the caller: for any two callers the
    outcome is the same.  On a stored identifier the answer is 200
    [{ success: true }] and the document, with the sessions and participants
    embedded in it, is gone while every other document stays; the answer is
    404 "Event not found" exactly when the identifier is not in the store. *)
Theorem deleteEvent_no_ownership_check (db : Store) id auth :
  (∀ auth', deleteEvent db id auth' = deleteEvent db id auth)
  ∧ (is_Some (db !! id) →
     deleteEvent db id auth = (mkResponse 200 SuccessBody, delete id db))
  ∧ (deleteEvent db id auth).2 !! id = None
  ∧ (∀ k, k ≠ id → (deleteEvent db id auth).2 !! k = db !! k)
  ∧ ((deleteEvent db id auth).1 = mkResponse 404 (ErrorBody "Event not found")
     ↔ db !! id = None).
Proof.
  unfold deleteEvent. destruct (db !! id) as [e|] eqn:Hid; simpl.
  - split; [done|]. split; [done|]. split; [apply lookup_delete_eq|].
    split; [intros k Hk; by apply lookup_delete_ne|]. split; discriminate.
  - split; [done|]. split; [by intros [? ?]|]. done.
Qed.

Lemma deleteEvent_no_ownership_check_witness :
  Event.organizerId party ≠ Auth.userId bob
  ∧ is_Some (db1 !! 1%N)
  ∧ deleteEvent db1 1 bob = (mkResponse 200 SuccessBody, delete 1%N db1).
Proof.
  assert (H0 : Event.organizerId party ≠ Auth.userId bob) by discriminate.
  assert (H1 : is_Some (db1 !! 1%N)) by (exists party; reflexivity).
  refine (conj H0 (conj H1 _)).
  exact (proj1 (proj2 (deleteEvent_no_ownership_check db1 1%N bob)) H1).
Defined.

(** ** The public listing *)

Global Instance newestFirst_total : Total newestFirst.
Proof. intros a b. unfold newestFirst. lia. Qed.

Lemma publicMatches_elem_of (db : Store) auth d :
  d ∈ publicMatches db auth ↔
  db !! d.1 = Some d.2 ∧ Event.isPublic d.2 = true
  ∧ Event.organizerId d.2 ≠ Auth.userId auth.
Proof.
  unfold publicMatches. rewrite merge_sort_Permutation, list_elem_of_filter.
  destruct d as [k e]. rewrite elem_of_map_to_list. unfold publicFilter.
  simpl. tauto.
Qed.

(** C10: the public listing answers 200 with the first 20 of the matching
    events (public, organizer other than the caller) in newest-first order:
    never more than 20, and exactly 20 when more than 20 match.  The store
    is not changed. *)
Theorem publicEvents_at_most_20 (db : Store) auth :
  ∃ es,
    publicEvents db auth = (mkResponse 200 (EventsBody es), db)
    ∧ es = take 20 (publicMatches db auth)
    ∧ (length es ≤ 20)%nat
    ∧ (20 < length (publicMatches db auth) → length es = 20)%nat
    ∧ Sorted newestFirst (publicMatches db auth)
    ∧ (∀ d, d ∈ publicMatches db auth ↔
            (db !! d.1 = Some d.2 ∧ Event.isPublic d.2 = true
             ∧ Event.organizerId d.2 ≠ Auth.userId auth)).
Proof.
  exists (take 20 (publicMatches db auth)).
  split; [done|]. split; [done|].
  split; [rewrite length_take; lia|].
  split; [rewrite length_take; lia|].
  split; [apply (Sorted_merge_sort newestFirst)|].
  apply publicMatches_elem_of.
Qed.

Lemma publicEvents_at_most_20_witness :
  (20 < length (publicMatches crowd alice))%nat
  ∧ ∃ es, publicEvents crowd alice = (mkResponse 200 (EventsBody es), crowd)
          ∧ length es = 20%nat
          ∧ (Event.createdAt ∘ snd <$> es)
            = [25; 24; 23; 22; 21; 20; 19; 18; 17; 16;
               15; 14; 13; 12; 11; 10; 9; 8; 7; 6]%Z.
Proof.
  assert (H : (20 < length (publicMatches crowd alice))%nat)
    by (vm_compute; lia).
  refine (conj H _).
  destruct (publicEvents_at_most_20 crowd alice) as (es & Hr & -> & _ & Hl & _).
  exists (take 20 (publicMatches crowd alice)).
  split; [exact Hr|]. split; [exact (Hl H)|]. vm_compute. reflexivity.
Defined.

(** ** The organizer of an event *)

Lemma save_organizers env (db db' : Store) id e e' :
  db !! id = Some e →
  Event.organizerId e' = Event.organizerId e →
  save env db id e' = Some db' →
  organizers db' = organizers db.
Proof.
  intros Hid Horg Hsave. apply map_eq. intros k. unfold organizers.
  rewrite !lookup_fmap. by eapply save_organizerId.
Qed.

(** The step shared by the handlers that end in [save]: the saved document
    has the organizer of the loaded one. *)
Ltac same_organizer Hload Hsave :=
  eapply (save_organizers _ _ _ _ _ _ Hload); [|exact Hsave]; reflexivity.

Lemma joinEvent_organizers env (db : Store) id auth :
  organizers (joinEvent env db id auth).2 = organizers db.
Proof.
  unfold joinEvent. destruct (db !! id) as [e|] eqn:Hid; [|done].
  destruct (alreadyJoined e auth); [done|].
  destruct (Z.geb _ _); [done|].
  destruct (save _ _ _ _) as [db'|] eqn:Hs; [|done].
  simpl. same_organizer Hid Hs.
Qed.

Lemma leaveEvent_organizers env (db : Store) id auth :
  organizers (leaveEvent env db id auth).2 = organizers db.
Proof.
  unfold leaveEvent. destruct (db !! id) as [e|] eqn:Hid; [|done].
  destruct (save _ _ _ _) as [db'|] eqn:Hs; [|done].
  simpl. same_organizer Hid Hs.
Qed.

Lemma addSession_organizers dp env (db : Store) id auth b :
  organizers (addSession dp env db id auth b).2 = organizers db.
Proof.
  unfold addSession. destruct (db !! id) as [e|] eqn:Hid; [|done].
  case_bool_decide; [done|].
  destruct (castSession _ _); [|done].
  destruct (save _ _ _ _) as [db'|] eqn:Hs; [|done].
  simpl. same_organizer Hid Hs.
Qed.

Lemma updateSession_organizers dp env (db : Store) sid auth u :
  organizers (updateSession dp env db sid auth u).2 = organizers db.
Proof.
  unfold updateSession.
  destruct (findOwnedBySession db sid auth) as [[k e]|] eqn:Hf; [|done].
  apply findOwnedBySession_Some in Hf as (Hk & _ & _).
  destruct (sessions_id _ _); [|done].
  destruct (assignSession _ _ _); [|done].
  destruct (save _ _ _ _) as [db'|] eqn:Hs; [|done].
  simpl. same_organizer Hk Hs.
Qed.

Lemma removeSession_organizers env (db : Store) sid auth :
  organizers (removeSession env db sid auth).2 = organizers db.
Proof.
  unfold removeSession.
  destruct (findOwnedBySession db sid auth) as [[k e]|] eqn:Hf; [|done].
  apply findOwnedBySession_Some in Hf as (Hk & _ & _).
  destruct (sessions_id _ _); [|done].
  destruct (save _ _ _ _) as [db'|] eqn:Hs; [|done].
  simpl. same_organizer Hk Hs.
Qed.

Lemma applyPatch_organizerId dp now u e e' :
  applyPatch dp now u e = Some e' →
  Event.organizerId e' = patched (EventPatch.organizerId u) (Event.organizerId e).
Proof.
  unfold applyPatch.
  destruct (from_option _ _ (EventPatch.startDate u)); [|done].
  destruct (from_option _ _ (EventPatch.endDate u)); [|done].
  destruct (from_option _ _ (EventPatch.createdAt u)); [|done].
  by intros [= <-].
Qed.

(** The update handler either leaves the store alone, with an answer other
    than 200, or stores the patched document and answers 200. *)
Lemma updateEvent_inv dp env (db : Store) id auth u :
  (status (updateEvent dp env db id auth u).1 ≠ 200
   ∧ (updateEvent dp env db id auth u).2 = db)
  ∨ ∃ e e', db !! id = Some e
            ∧ applyPatch dp (Env.now env) u e = Some e'
            ∧ validate e' = true
            ∧ updateEvent dp env db id auth u
              = (mkResponse 200 (EventBody id e'), <[id := e']> db).
Proof.
  unfold updateEvent. destruct (db !! id) as [e|] eqn:Hid; [|by left].
  case_bool_decide; [|by left].
  unfold findByIdAndUpdate. rewrite Hid.
  destruct (applyPatch dp (Env.now env) u e) as [e'|] eqn:Hp; [|by left].
  destruct (validate e') eqn:Hv; [|by left].
  right. by exists e, e'.
Qed.

(** C2 (amended): join, leave, addSession, updateSession and removeSession
    leave the organizerId of every stored event as it was.  updateEvent does
    so when the patch has no organizerId key; when the patch has one and the
    update is answered 200, the event's organizerId is the patch's. *)
Theorem organizerId_changes_only_by_patch dp env (db : Store) id sid auth b u up :
  organizers (joinEvent env db id auth).2 = organizers db
  ∧ organizers (leaveEvent env db id auth).2 = organizers db
  ∧ organizers (addSession dp env db id auth b).2 = organizers db
  ∧ organizers (updateSession dp env db sid auth u).2 = organizers db
  ∧ organizers (removeSession env db sid auth).2 = organizers db
  ∧ (EventPatch.organizerId up = None →
     organizers (updateEvent dp env db id auth up).2 = organizers db)
  ∧ (∀ o, EventPatch.organizerId up = Some o →
          status (updateEvent dp env db id auth up).1 = 200 →
          organizers (updateEvent dp env db id auth up).2 !! id = Some o).
Proof.
  split; [apply joinEvent_organizers|].
  split; [apply leaveEvent_organizers|].
  split; [apply addSession_organizers|].
  split; [apply updateSession_organizers|].
  split; [apply removeSession_organizers|].
  destruct (updateEvent_inv dp env db id auth up)
    as [[Hst ->]|(e & e' & Hid & Hp & _ & ->)]; simpl.
  - done.
  - apply applyPatch_organizerId in Hp. unfold organizers.
    rewrite fmap_insert, Hp. split.
    + intros ->. simpl. apply insert_id. by rewrite lookup_fmap, Hid.
    + intros o -> _. simpl. apply lookup_insert_eq.
Qed.

Lemma organizerId_changes_only_by_patch_witness :
  (EventPatch.organizerId noEventPatch = None
   ∧ organizers (updateEvent sampleParse env0 db0 1 org1 noEventPatch).2
     = organizers db0)
  ∧ (EventPatch.organizerId takeover = Some "mallory"
     ∧ status (updateEvent sampleParse env0 db0 1 org1 takeover).1 = 200
     ∧ organizers (updateEvent sampleParse env0 db0 1 org1 takeover).2 !! 1%N
       = Some "mallory").
Proof.
  assert (H : EventPatch.organizerId noEventPatch = None) by reflexivity.
  assert (H1 : EventPatch.organizerId takeover = Some "mallory") by reflexivity.
  assert (H2 : status (updateEvent sampleParse env0 db0 1 org1 takeover).1 = 200)
    by reflexivity.
  refine (conj (conj H _) (conj H1 (conj H2 _))).
  - exact (proj1 (proj2 (proj2 (proj2 (proj2 (proj2
      (organizerId_changes_only_by_patch sampleParse env0 db0 1%N 7%N org1
         backwards noSessionPatch noEventPatch)))))) H).
  - exact (proj2 (proj2 (proj2 (proj2 (proj2 (proj2
      (organizerId_changes_only_by_patch sampleParse env0 db0 1%N 7%N org1
         backwards noSessionPatch takeover)))))) "mallory" H1 H2).
Defined.

(** C2 as stated fails: the organizer [org1] sends the patch
    [{ organizerId: "mallory" }] for the event 1; the answer is 200 and the
    stored organizerId is no longer ["org1"]. *)
Lemma updateEvent_reassigns_organizer :
  Event.organizerId <$> db0 !! 1%N = Some "org1"
  ∧ status (updateEvent sampleParse env0 db0 1 org1 takeover).1 = 200
  ∧ Event.organizerId <$> (updateEvent sampleParse env0 db0 1 org1 takeover).2 !! 1%N
    = Some "mallory"
  ∧ Event.organizerId <$> (updateEvent sampleParse env0 db0 1 org1 takeover).2 !! 1%N
    ≠ Event.organizerId <$> db0 !! 1%N.
Proof.
  assert (H : Event.organizerId
                <$> (updateEvent sampleParse env0 db0 1 org1 takeover).2 !! 1%N
              = Some "mallory") by (vm_compute; reflexivity).
  split; [reflexivity|]. split; [reflexivity|]. split; [exact H|].
  rewrite H. discriminate.
Qed.

(** ** Session routes and callers who are not the organizer *)

(** C4 (amended): a caller who is not the organizer of a stored event is
    answered 403 "Not authorized to modify this event" by addSession; a
    caller who organizes no event holding the session is answered 404
    "Session not found or not authorized" by updateSession and by
    removeSession, the answer an unknown session gets.  In all three cases
    the store is as before. *)
Theorem session_routes_reject_non_organizer dp env (db : Store) eventId sid auth b u :
  (∀ e, db !! eventId = Some e →
        Event.organizerId e ≠ Auth.userId auth →
        addSession dp env db eventId auth b
        = (mkResponse 403 (ErrorBody "Not authorized to modify this event"), db))
  ∧ ((∀ k e, db !! k = Some e → hasSession sid e = true →
             Event.organizerId e ≠ Auth.userId auth) →
     updateSession dp env db sid auth u
     = (mkResponse 404 (ErrorBody "Session not found or not authorized"), db)
     ∧ removeSession env db sid auth
       = (mkResponse 404 (ErrorBody "Session not found or not authorized"), db)).
Proof.
  split.
  - intros e Hid Hne. unfold addSession. rewrite Hid.
    by rewrite bool_decide_eq_true_2.
  - intros Hnot%findOwnedBySession_None.
    unfold updateSession, removeSession. by rewrite Hnot.
Qed.

Lemma session_routes_reject_non_organizer_witness :
  (db0 !! 1%N = Some (meetup 0)
   ∧ Event.organizerId (meetup 0) ≠ Auth.userId alice
   ∧ addSession sampleParse env0 db0 1 alice backwards
     = (mkResponse 403 (ErrorBody "Not authorized to modify this event"), db0))
  ∧ ((∀ k e, db0 !! k = Some e → hasSession 7 e = true →
             Event.organizerId e ≠ Auth.userId alice)
     ∧ updateSession sampleParse env0 db0 7 alice (endAt (JNumber 30))
       = (mkResponse 404 (ErrorBody "Session not found or not authorized"), db0)
     ∧ removeSession env0 db0 7 alice
       = (mkResponse 404 (ErrorBody "Session not found or not authorized"), db0)).
Proof.
  assert (H1 : db0 !! 1%N = Some (meetup 0)) by reflexivity.
  assert (H2 : Event.organizerId (meetup 0) ≠ Auth.userId alice) by discriminate.
  assert (H3 : ∀ k e, db0 !! k = Some e → hasSession 7 e = true →
                      Event.organizerId e ≠ Auth.userId alice).
  { unfold db0. intros k e [_ <-]%lookup_singleton_Some _. exact H2. }
  refine (conj (conj H1 (conj H2 _)) (conj H3 _)).
  - exact (proj1 (session_routes_reject_non_organizer sampleParse env0 db0 1%N
                    7%N alice backwards (endAt (JNumber 30))) (meetup 0) H1 H2).
  - exact (proj2 (session_routes_reject_non_organizer sampleParse env0 db0 1%N
                    7%N alice backwards (endAt (JNumber 30))) H3).
Defined.

(** C4 as stated fails: [alice], who is not the organizer of the event that
    holds session 7, is answered 404 and not 403 by updateSession and by
    removeSession. *)
Lemma update_remove_answer_404_to_non_organizer :
  hasSession 7 (meetup 0) = true
  ∧ Event.organizerId (meetup 0) ≠ Auth.userId alice
  ∧ updateSession sampleParse env0 db0 7 alice noSessionPatch
    = (mkResponse 404 (ErrorBody "Session not found or not authorized"), db0)
  ∧ removeSession env0 db0 7 alice
    = (mkResponse 404 (ErrorBody "Session not found or not authorized"), db0)
  ∧ status (updateSession sampleParse env0 db0 7 alice noSessionPatch).1 ≠ 403
  ∧ status (removeSession env0 db0 7 alice).1 ≠ 403.
Proof.
  split; [reflexivity|]. split; [discriminate|].
  split; [vm_compute; reflexivity|]. split; [vm_compute; reflexivity|].
  split; vm_compute; discriminate.
Qed.

(** ** Updating a session *)

Lemma validate_with_sessions e ss :
  validate e = true →
  forallb validateSession ss = true →
  validate (Event.with_sessions ss e) = true.
Proof.
  unfold validate. simpl.
  intros [[[Ht Ho]%andb_true_iff _]%andb_true_iff Hp]%andb_true_iff Hss.
  by rewrite Ht, Ho, Hss, Hp.
Qed.

Lemma validate_sessions e :
  validate e = true → forallb validateSession (Event.sessions e) = true.
Proof.
  unfold validate.
  by intros [[_ Hs]%andb_true_iff _]%andb_true_iff.
Qed.

Lemma replaceSession_valid sid s' ss :
  forallb validateSession ss = true →
  validateSession s' = true →
  forallb validateSession (replaceSession sid s' ss) = true.
Proof.
  intros Hss Hs'. induction ss as [|s ss IH]; [done|].
  simpl in *. apply andb_true_iff in Hss as [Hs Hrest].
  case_bool_decide; simpl.
  - by rewrite Hs', Hrest.
  - by rewrite Hs, IH.
Qed.

Lemma replaceSession_ids sid s' ss :
  Session._id s' = sid →
  Session._id <$> replaceSession sid s' ss = Session._id <$> ss.
Proof.
  intros Hs'. induction ss as [|s ss IH]; [done|].
  simpl. case_bool_decide; rewrite !fmap_cons; [|by rewrite IH].
  f_equal. congruence.
Qed.

Lemma replaceSession_elem_of sid s s' ss :
  sessions_id sid ss = Some s → s' ∈ replaceSession sid s' ss.
Proof.
  unfold sessions_id. induction ss as [|x ss IH]; [done|].
  simpl. case_bool_decide.
  - intros _. apply list_elem_of_here.
  - intros Hf. apply list_elem_of_further. by apply IH.
Qed.

Lemma assignSession_id dp s u s' :
  assignSession dp s u = Some s' →
  Session._id s' = patched (SessionPatch._id u) (Session._id s).
Proof.
  unfold assignSession.
  destruct (from_option _ _ (SessionPatch.startTime u)); [|done].
  destruct (from_option _ _ (SessionPatch.endTime u)); [|done].
  by intros [= <-].
Qed.

(** The update handler either leaves the store alone, with an error body,
    or answers 200 with the merged session and stores it in place of the
    session found. *)
Lemma updateSession_inv dp env (db : Store) sid auth u :
  (∃ st msg, updateSession dp env db sid auth u
             = (mkResponse st (ErrorBody msg), db))
  ∨ ∃ eid e s s',
      db !! eid = Some e
      ∧ sessions_id sid (Event.sessions e) = Some s
      ∧ assignSession dp s u = Some s'
      ∧ updateSession dp env db sid auth u
        = (mkResponse 200 (SessionBody s'),
           <[eid := Event.with_updatedAt (Env.now env)
                      (Event.with_sessions
                         (replaceSession sid s' (Event.sessions e)) e)]> db).
Proof.
  unfold updateSession.
  destruct (findOwnedBySession db sid auth) as [[eid e]|] eqn:Hf; [|left; eauto].
  apply findOwnedBySession_Some in Hf as (Hid & _ & _).
  destruct (sessions_id sid (Event.sessions e)) as [s|] eqn:Hs; [|left; eauto].
  destruct (assignSession dp s u) as [s'|] eqn:Ha; [|left; eauto].
  destruct (save _ _ _ _) as [db'|] eqn:Hsave; [|left; eauto].
  apply save_inv in Hsave as [_ ->]. right. by exists eid, e, s, s'.
Qed.

(** C8 (amended): when the patch has no [_id] key, or has the session's own
    identifier there, updateSession leaves the session identifiers of every
    stored event as they were and the session it returns has the identifier
    of the request.  When the patch has an [_id] key, the session returned
    has the identifier of the patch. *)
Theorem updateSession_keeps_id_without_id_key dp env (db : Store) sid auth u :
  (SessionPatch._id u = None ∨ SessionPatch._id u = Some sid →
   sessionIds (updateSession dp env db sid auth u).2 = sessionIds db
   ∧ ∀ s', body (updateSession dp env db sid auth u).1 = SessionBody s' →
           Session._id s' = sid)
  ∧ (∀ i s', SessionPatch._id u = Some i →
             body (updateSession dp env db sid auth u).1 = SessionBody s' →
             Session._id s' = i).
Proof.
  destruct (updateSession_inv dp env db sid auth u)
    as [(st & msg & ->)|(eid & e & s & s' & Hid & Hs & Ha & ->)]; simpl.
  - split; [|done]. intros _. split; [done|]. discriminate.
  - apply assignSession_id in Ha. apply sessions_id_Some in Hs as [_ Hsid].
    rewrite Hsid in Ha. split.
    + intros Hu.
      assert (Session._id s' = sid) as Hs'
        by (destruct Hu as [Hu|Hu]; rewrite Hu in Ha; exact Ha).
      split; [|by intros ? [= <-]].
      unfold sessionIds. rewrite fmap_insert. simpl.
      rewrite replaceSession_ids by done.
      apply insert_id. by rewrite lookup_fmap, Hid.
    + intros i ? Hu [= <-]. by rewrite Hu in Ha.
Qed.

Lemma updateSession_keeps_id_without_id_key_witness :
  ((SessionPatch._id (endAt (JNumber 30)) = None
    ∨ SessionPatch._id (endAt (JNumber 30)) = Some 7%N)
   ∧ status (updateSession sampleParse env0 db0 7 org1 (endAt (JNumber 30))).1 = 200
   ∧ sessionIds (updateSession sampleParse env0 db0 7 org1 (endAt (JNumber 30))).2
     = sessionIds db0)
  ∧ (SessionPatch._id renumber = Some 99%N
     ∧ body (updateSession sampleParse env0 db0 7 org1 renumber).1
       = SessionBody (Session.mk 99 "Keynote" None 10 20 "TBD" "TBD" [])
     ∧ Session._id (Session.mk 99 "Keynote" None 10 20 "TBD" "TBD" []) = 99%N).
Proof.
  assert (H : SessionPatch._id (endAt (JNumber 30)) = None
              ∨ SessionPatch._id (endAt (JNumber 30)) = Some 7%N)
    by (left; reflexivity).
  assert (H1 : SessionPatch._id renumber = Some 99%N) by reflexivity.
  assert (H2 : body (updateSession sampleParse env0 db0 7 org1 renumber).1
               = SessionBody (Session.mk 99 "Keynote" None 10 20 "TBD" "TBD" []))
    by (vm_compute; reflexivity).
  refine (conj (conj H (conj _ _)) (conj H1 (conj H2 _))).
  - vm_compute. reflexivity.
  - exact (proj1 (proj1 (updateSession_keeps_id_without_id_key sampleParse env0
                           db0 7%N org1 (endAt (JNumber 30))) H)).
  - exact (proj2 (updateSession_keeps_id_without_id_key sampleParse env0
                    db0 7%N org1 renumber) 99%N _ H1 H2).
Defined.

(** C8 as stated fails: the organizer sends [{ _id: 99 }] for session 7;
    the answer is 200, and the session returned and stored has identifier
    99. *)
Lemma updateSession_renumbers_session :
  sessionIds db0 !! 1%N = Some [7%N]
  ∧ (updateSession sampleParse env0 db0 7 org1 renumber).1
    = mkResponse 200 (SessionBody (Session.mk 99 "Keynote" None 10 20 "TBD" "TBD" []))
  ∧ sessionIds (updateSession sampleParse env0 db0 7 org1 renumber).2 !! 1%N
    = Some [99%N]
  ∧ sessionIds (updateSession sampleParse env0 db0 7 org1 renumber).2
    ≠ sessionIds db0.
Proof.
  assert (H : sessionIds (updateSession sampleParse env0 db0 7 org1 renumber).2 !! 1%N
              = Some [99%N]) by (vm_compute; reflexivity).
  split; [vm_compute; reflexivity|]. split; [vm_compute; reflexivity|].
  split; [exact H|]. intros Heq. rewrite Heq in H. vm_compute in H. discriminate.
Qed.

(** C3: the update handler has no check of [endTime] against [startTime].
    For the organizer, a session found and a patch whose merge casts and
    keeps a title, the answer is 200 with the merged session, which is
    stored in place of the old one, also when the merge has
    [endTime < startTime]. *)
Theorem updateSession_accepts_end_before_start
    dp env (db : Store) sid auth u eid e s s' :
  findOwnedBySession db sid auth = Some (eid, e) →
  validate e = true →
  sessions_id sid (Event.sessions e) = Some s →
  assignSession dp s u = Some s' →
  Session.title s' ≠ "" →
  (Session.endTime s' < Session.startTime s')%Z →
  updateSession dp env db sid auth u
  = (mkResponse 200 (SessionBody s'),
     <[eid := Event.with_updatedAt (Env.now env)
                (Event.with_sessions
                   (replaceSession sid s' (Event.sessions e)) e)]> db)
  ∧ s' ∈ replaceSession sid s' (Event.sessions e).
Proof.
  intros Hf Hv Hs Ha Ht _. split; [|by eapply replaceSession_elem_of].
  unfold updateSession. rewrite Hf, Hs, Ha.
  rewrite save_Some; [done|].
  apply validate_with_sessions; [done|].
  apply replaceSession_valid; [by apply validate_sessions|].
  by apply bool_decide_eq_true.
Qed.

Lemma updateSession_accepts_end_before_start_witness :
  findOwnedBySession db0 7 org1 = Some (1%N, meetup 0)
  ∧ sessions_id 7 (Event.sessions (meetup 0)) = Some keynote
  ∧ assignSession sampleParse keynote (endAt (JNumber 5)) = Some keynoteEnds5
  ∧ (Session.endTime keynoteEnds5 < Session.startTime keynoteEnds5)%Z
  ∧ updateSession sampleParse env0 db0 7 org1 (endAt (JNumber 5))
    = (mkResponse 200 (SessionBody keynoteEnds5),
       <[1%N := Event.with_updatedAt 1700000000000
                  (Event.with_sessions [keynoteEnds5] (meetup 0))]> db0).
Proof.
  assert (H1 : findOwnedBySession db0 7 org1 = Some (1%N, meetup 0))
    by (vm_compute; reflexivity).
  assert (H2 : validate (meetup 0) = true) by reflexivity.
  assert (H3 : sessions_id 7 (Event.sessions (meetup 0)) = Some keynote)
    by reflexivity.
  assert (H4 : assignSession sampleParse keynote (endAt (JNumber 5))
               = Some keynoteEnds5) by reflexivity.
  assert (H5 : Session.title keynoteEnds5 ≠ "") by discriminate.
  assert (H6 : (Session.endTime keynoteEnds5 < Session.startTime keynoteEnds5)%Z)
    by (simpl; lia).
  refine (conj H1 (conj H3 (conj H4 (conj H6 _)))).
  exact (proj1 (updateSession_accepts_end_before_start sampleParse env0 db0 7%N
                  org1 (endAt (JNumber 5)) 1%N (meetup 0) keynote keynoteEnds5
                  H1 H2 H3 H4 H5 H6)).
Defined.

(** ** Adding a session *)

Lemma validate_push_session e s :
  validate e = true →
  validateSession s = true →
  validate (Event.with_sessions (Event.sessions e ++ [s]) e) = true.
Proof.
  intros Hv Hs. apply validate_with_sessions; [done|].
  rewrite forallb_app, (validate_sessions e Hv). simpl. by rewrite Hs.
Qed.

(** C9: the add handler validates nothing before [save], and [save] checks
    only that the required paths are there.  For the organizer, a title and
    two values that [new Date] accepts, the answer is 201 with the plain
    object and the session is appended, also when its end is before its
    start. *)
Theorem addSession_accepts_end_before_start
    dp env (db : Store) eventId e auth b t st en :
  db !! eventId = Some e →
  Event.organizerId e = Auth.userId auth →
  validate e = true →
  SessionFields.title b = Some t → t ≠ "" →
  new_Date dp (SessionFields.startTime b) = Some st →
  new_Date dp (SessionFields.endTime b) = Some en →
  (en < st)%Z →
  addSession dp env db eventId auth b
  = (mkResponse 201 (NewSessionBody (newSession dp b)),
     <[eventId := Event.with_updatedAt (Env.now env)
         (Event.with_sessions
            (Event.sessions e ++
             [Session.mk (Env.freshId env) t (SessionFields.description b) st en
                (default "TBD" (SessionFields.speaker b))
                (default "TBD" (SessionFields.room b))
                (default [] (SessionFields.tags b))]) e)]> db).
Proof.
  intros Hid Ho Hv Ht Hne Hst Hen _. unfold addSession. rewrite Hid.
  rewrite bool_decide_eq_false_2 by (intros Hx; by apply Hx).
  unfold castSession, newSession. simpl. rewrite Ht, Hst, Hen.
  rewrite save_Some; [done|].
  apply validate_push_session; [done|]. by apply bool_decide_eq_true.
Qed.

Lemma addSession_accepts_end_before_start_witness :
  db0 !! 1%N = Some (meetup 0)
  ∧ Event.organizerId (meetup 0) = Auth.userId org1
  ∧ new_Date sampleParse (SessionFields.startTime backwards) = Some 20%Z
  ∧ new_Date sampleParse (SessionFields.endTime backwards) = Some 10%Z
  ∧ (10 < 20)%Z
  ∧ addSession sampleParse env0 db0 1 org1 backwards
    = (mkResponse 201 (NewSessionBody (newSession sampleParse backwards)),
       <[1%N := Event.with_updatedAt 1700000000000
                  (Event.with_sessions [keynote; panel] (meetup 0))]> db0).
Proof.
  assert (H1 : db0 !! 1%N = Some (meetup 0)) by reflexivity.
  assert (H2 : Event.organizerId (meetup 0) = Auth.userId org1) by reflexivity.
  assert (H3 : validate (meetup 0) = true) by reflexivity.
  assert (H4 : SessionFields.title backwards = Some "Panel") by reflexivity.
  assert (H5 : "Panel" ≠ "") by discriminate.
  assert (H6 : new_Date sampleParse (SessionFields.startTime backwards) = Some 20%Z)
    by reflexivity.
  assert (H7 : new_Date sampleParse (SessionFields.endTime backwards) = Some 10%Z)
    by reflexivity.
  assert (H8 : (10 < 20)%Z) by lia.
  refine (conj H1 (conj H2 (conj H6 (conj H7 (conj H8 _))))).
  exact (addSession_accepts_end_before_start sampleParse env0 db0 1%N (meetup 0)
           org1 backwards "Panel" 20%Z 10%Z H1 H2 H3 H4 H5 H6 H7 H8).
Defined.

(** Without a title, or with a value that [new Date] makes Invalid Date,
    the add handler answers 500 "Failed to create session": the error is
    the ValidationError of [save], caught by the handler, and the store is
    as before. *)
Lemma addSession_missing_field dp env (db : Store) eventId e auth b :
  db !! eventId = Some e →
  Event.organizerId e = Auth.userId auth →
  SessionFields.title b = None
  ∨ SessionFields.title b = Some ""
  ∨ new_Date dp (SessionFields.startTime b) = None
  ∨ new_Date dp (SessionFields.endTime b) = None →
  addSession dp env db eventId auth b
  = (mkResponse 500 (ErrorBody "Failed to create session"), db).
Proof.
  intros Hid Ho Hmiss. unfold addSession. rewrite Hid.
  rewrite bool_decide_eq_false_2 by (intros Hx; by apply Hx).
  unfold castSession, newSession. simpl.
  destruct (SessionFields.title b) as [t|]; [|done].
  destruct (new_Date dp (SessionFields.startTime b)); [|done].
  destruct (new_Date dp (SessionFields.endTime b)); [|done].
  destruct Hmiss as [?|[[= ->]|[?|?]]]; try done.
  unfold save, validate. simpl.
  rewrite forallb_app. simpl. by rewrite !andb_false_r.
Qed.

(** ** Filling an event to its capacity *)

Lemma validate_push_participant e p :
  validate e = true →
  validateParticipant p = true →
  validate (Event.with_participants (Event.participants e ++ [p]) e) = true.
Proof.
  unfold validate. simpl.
  intros [[[Ht Ho]%andb_true_iff Hs]%andb_true_iff Hp]%andb_true_iff Hv.
  rewrite Ht, Ho, Hs, forallb_app, Hp. simpl. by rewrite Hv.
Qed.

(** A join by a new userId below the capacity appends one participant. *)
Lemma joinEvent_admits env (db : Store) id e auth :
  db !! id = Some e →
  validate e = true →
  Auth.userId auth ≠ "" →
  Auth.userId auth ∉ Participant.userId <$> Event.participants e →
  (Z.of_nat (length (Event.participants e)) < Event.capacity e)%Z →
  ∃ p, Participant.userId p = Auth.userId auth
       ∧ joinEvent env db id auth
         = (mkResponse 200 (MembershipBody "Successfully joined event"
                              (S (length (Event.participants e)))),
            <[id := Event.with_updatedAt (Env.now env)
                      (Event.with_participants (Event.participants e ++ [p]) e)]> db).
Proof.
  intros Hid Hv Hne Hnot%alreadyJoined_false Hlt.
  eexists (Participant.mk _ _ _ _ _). split; [reflexivity|].
  unfold joinEvent. rewrite Hid, Hnot.
  destruct (Z.geb_spec (Z.of_nat (length (Event.participants e)))
                       (Event.capacity e)) as [Hge|_]; [lia|].
  rewrite save_Some.
  - simpl. rewrite length_app. simpl. do 3 f_equal. lia.
  - apply validate_push_participant; [done|]. by apply bool_decide_eq_true.
Qed.

Lemma joinAll_below_capacity id rs : ∀ (db : Store) e,
  db !! id = Some e →
  validate e = true →
  Forall (λ r, Auth.userId r.2 ≠ "") rs →
  NoDup ((Participant.userId <$> Event.participants e)
         ++ (Auth.userId ∘ snd <$> rs)) →
  (Z.of_nat (length (Event.participants e) + length rs) ≤ Event.capacity e)%Z →
  ∃ e', (joinAll db id rs).2 !! id = Some e'
        ∧ validate e' = true
        ∧ Event.capacity e' = Event.capacity e
        ∧ Participant.userId <$> Event.participants e'
          = (Participant.userId <$> Event.participants e)
            ++ (Auth.userId ∘ snd <$> rs)
        ∧ (joinAll db id rs).1
          = joinedAnswers (length (Event.participants e)) (length rs).
Proof.
  induction rs as [|[env auth] rs IH]; intros db e Hid Hv Hne Hnd Hcap.
  - exists e. simpl. by rewrite app_nil_r.
  - apply Forall_cons in Hne as [Hne1 Hne].
    rewrite fmap_cons in Hnd. simpl in Hnd, Hne1, Hcap.
    pose proof Hnd as Hfresh. apply NoDup_app in Hfresh as (_ & Hfresh & _).
    destruct (joinEvent_admits env db id e auth) as (p & Hp & Hjoin);
      [done|done|done| |lia|].
    { intros Hin. apply (Hfresh _ Hin). apply list_elem_of_here. }
    simpl. rewrite Hjoin. simpl.
    set (e1 := Event.with_updatedAt (Env.now env)
                 (Event.with_participants (Event.participants e ++ [p]) e)).
    destruct (IH (<[id := e1]> db) e1) as (e' & Hl & Hv' & Hc & Hps & Hans).
    + apply lookup_insert_eq.
    + unfold e1. rewrite validate_with_updatedAt.
      apply validate_push_participant; [done|].
      apply bool_decide_eq_true. by rewrite Hp.
    + done.
    + simpl. rewrite fmap_app. simpl. rewrite Hp, <-(assoc_L (++)). done.
    + simpl. rewrite length_app. simpl. lia.
    + exists e'. split; [done|]. split; [done|]. split; [done|]. split.
      * rewrite Hps. simpl. rewrite fmap_app. simpl.
        by rewrite Hp, <-(assoc_L (++)).
      * rewrite Hans. simpl. rewrite length_app. simpl.
        by replace (length (Event.participants e) + 1) with
          (S (length (Event.participants e))) by lia.
Qed.

(** An event of capacity [N > 0] with no participant admits [N] callers of
    distinct userIds, reporting the counts 1 to [N], and answers "Event is
    full" to the next new caller. *)
Lemma joinAll_fills_to_capacity (db : Store) id e rs env auth :
  db !! id = Some e →
  validate e = true →
  Event.participants e = [] →
  (0 < Event.capacity e)%Z →
  Event.capacity e = Z.of_nat (length rs) →
  Forall (λ r, Auth.userId r.2 ≠ "") rs →
  NoDup ((Auth.userId ∘ snd <$> rs) ++ [Auth.userId auth]) →
  (joinAll db id rs).1 = joinedAnswers 0 (length rs)
  ∧ joinEvent env (joinAll db id rs).2 id auth
    = (mkResponse 400 (ErrorBody "Event is full"), (joinAll db id rs).2).
Proof.
  intros Hid Hv Hnil Hpos Hcap Hne Hnd.
  destruct (joinAll_below_capacity id rs db e) as (e' & Hl & _ & Hc & Hps & Hans);
    [done|done|done| | |].
  - rewrite Hnil. simpl. by apply NoDup_app in Hnd as (? & _ & _).
  - rewrite Hnil. simpl. lia.
  - rewrite Hnil in Hans, Hps. simpl in Hans, Hps. split; [done|].
    assert (alreadyJoined e' auth = false) as Hnot.
    { apply alreadyJoined_false. rewrite Hps. intros Hin.
      apply NoDup_app in Hnd as (_ & Hfresh & _).
      apply (Hfresh _ Hin). apply list_elem_of_here. }
    assert (length (Event.participants e') = length rs) as Hlen.
    { rewrite <-(length_fmap Participant.userId), Hps. by rewrite length_fmap. }
    unfold joinEvent. rewrite Hl, Hnot, Hc, Hcap, Hlen.
    destruct (Z.geb_spec (Z.of_nat (length rs)) (Z.of_nat (length rs)));
      [done|lia].
Qed.

(** ** Stored documents pass the validators *)

Lemma save_valid env (db db' : Store) id e :
  validStore db → save env db id e = Some db' → validStore db'.
Proof.
  intros Hdb [Hv ->]%save_inv. by apply map_Forall_insert_2.
Qed.

(** Every handler takes a store of valid documents to one. *)
Lemma handlers_keep_store_valid dp env (db : Store) id sid auth b u up :
  validStore db →
  validStore (joinEvent env db id auth).2
  ∧ validStore (leaveEvent env db id auth).2
  ∧ validStore (deleteEvent db id auth).2
  ∧ validStore (addSession dp env db id auth b).2
  ∧ validStore (updateSession dp env db sid auth u).2
  ∧ validStore (removeSession env db sid auth).2
  ∧ validStore (updateEvent dp env db id auth up).2.
Proof.
  intros Hdb. repeat split.
  - unfold joinEvent. destruct (db !! id); [|done].
    destruct (alreadyJoined _ _); [done|]. destruct (Z.geb _ _); [done|].
    destruct (save _ _ _ _) eqn:Hs; [|done]. by eapply save_valid.
  - unfold leaveEvent. destruct (db !! id); [|done].
    destruct (save _ _ _ _) eqn:Hs; [|done]. by eapply save_valid.
  - unfold deleteEvent. destruct (db !! id); [|done].
    by apply map_Forall_delete.
  - unfold addSession. destruct (db !! id); [|done].
    case_bool_decide; [done|]. destruct (castSession _ _); [|done].
    destruct (save _ _ _ _) eqn:Hs; [|done]. by eapply save_valid.
  - unfold updateSession. destruct (findOwnedBySession _ _ _) as [[??]|]; [|done].
    destruct (sessions_id _ _); [|done]. destruct (assignSession _ _ _); [|done].
    destruct (save _ _ _ _) eqn:Hs; [|done]. by eapply save_valid.
  - unfold removeSession. destruct (findOwnedBySession _ _ _) as [[??]|]; [|done].
    destruct (sessions_id _ _); [|done].
    destruct (save _ _ _ _) eqn:Hs; [|done]. by eapply save_valid.
  - destruct (updateEvent_inv dp env db id auth up)
      as [[_ ->]|(e & e' & _ & _ & Hv & ->)]; [done|].
    by apply map_Forall_insert_2.
Qed.

(** The scenario of an event of capacity 1: [alice] joins (count 1), [bob]
    is answered "Event is full", [alice] leaves (count 0), [bob] joins
    (count 1). *)
Example capacity_one_scenario :
  let db := {[ 1%N := meetup 1 ]} in
  let s1 := joinEvent env0 db 1 alice in
  let s2 := joinEvent env0 s1.2 1 bob in
  let s3 := leaveEvent env0 s2.2 1 alice in
  let s4 := joinEvent env0 s3.2 1 bob in
  s1.1 = mkResponse 200 (MembershipBody "Successfully joined event" 1)
  ∧ s2.1 = mkResponse 400 (ErrorBody "Event is full")
  ∧ s3.1 = mkResponse 200 (MembershipBody "Successfully left event" 0)
  ∧ s4.1 = mkResponse 200 (MembershipBody "Successfully joined event" 1).
Proof. vm_compute. done. Qed.

(** ** The creation rule against the add handler *)

(** What the creation route asks of each session: a title, two ISO dates,
    the end not before the start. *)
Lemma sessionItemSchema_ordered iso dp b :
  sessionItemSchema dp iso b = true →
  ∃ t st en,
    SessionFields.title b = Some t ∧ t ≠ ""
    ∧ joiIsoDate dp iso (SessionFields.startTime b) = Some st
    ∧ joiIsoDate dp iso (SessionFields.endTime b) = Some en
    ∧ (st ≤ en)%Z.
Proof.
  unfold sessionItemSchema.
  destruct (SessionFields.title b) as [t|]; [|done].
  destruct (joiIsoDate dp iso (SessionFields.startTime b)) as [st|]; [|done].
  destruct (joiIsoDate dp iso (SessionFields.endTime b)) as [en|]; [|done].
  intros [Ht Hle]%andb_true_iff.
  apply bool_decide_eq_true in Ht, Hle. by exists t, st, en.
Qed.

(** A session that the creation route refuses and the add handler
    appends. *)
Example creation_refuses_what_addSession_appends :
  sessionItemSchema sampleParse sampleIso backwardsIso = false
  ∧ status (addSession sampleParse env0 db0 1 org1 backwardsIso).1 = 201
  ∧ (Event.sessions <$> (addSession sampleParse env0 db0 1 org1 backwardsIso).2 !! 1%N)
    = Some [keynote; Session.mk 501 "Panel" None 1000 0 "TBD" "TBD" []].
Proof. vm_compute. done. Qed.

(** * Further properties of the handlers *)

(** ** Membership *)

(** The join handler either answers something other than 200 and leaves the
    store alone, or appends [joiner] to an event that had room. *)
Lemma joinEvent_inv env (db : Store) id auth :
  (status (joinEvent env db id auth).1 ≠ 200
   ∧ (joinEvent env db id auth).2 = db)
  ∨ ∃ e, db !! id = Some e
         ∧ alreadyJoined e auth = false
         ∧ (Z.of_nat (length (Event.participants e)) < Event.capacity e)%Z
         ∧ validate e = true
         ∧ joinEvent env db id auth
           = (mkResponse 200 (MembershipBody "Successfully joined event"
                                (S (length (Event.participants e)))),
              <[id := Event.with_updatedAt (Env.now env)
                        (Event.with_participants
                           (Event.participants e ++ [joiner env auth]) e)]> db).
Proof.
  unfold joinEvent. destruct (db !! id) as [e|] eqn:Hid; [|by left].
  destruct (alreadyJoined e auth) eqn:Hnot; [by left|].
  destruct (Z.geb_spec (Z.of_nat (length (Event.participants e)))
                       (Event.capacity e)) as [Hge|Hlt]; [by left|].
  fold (joiner env auth).
  destruct (save _ _ _ _) as [db'|] eqn:Hs; [|by left].
  apply save_inv in Hs as [Hv ->]. right. exists e.
  split; [done|]. split; [done|]. split; [done|]. split.
  - revert Hv. unfold validate. simpl. rewrite forallb_app.
    intros [[H1 H2]%andb_true_iff [H3 _]%andb_true_iff]%andb_true_iff.
    by rewrite H1, H2, H3.
  - simpl. rewrite length_app. simpl. do 3 f_equal. lia.
Qed.

Lemma leaveEvent_inv env (db : Store) id auth :
  (status (leaveEvent env db id auth).1 ≠ 200
   ∧ (leaveEvent env db id auth).2 = db)
  ∨ ∃ e, db !! id = Some e
         ∧ leaveEvent env db id auth
           = (mkResponse 200 (MembershipBody "Successfully left event"
                                (length (stayers auth e))),
              <[id := Event.with_updatedAt (Env.now env)
                        (Event.with_participants (stayers auth e) e)]> db).
Proof.
  unfold leaveEvent. destruct (db !! id) as [e|] eqn:Hid; [|by left].
  fold (stayers auth e).
  destruct (save _ _ _ _) as [db'|] eqn:Hs; [|by left].
  apply save_inv in Hs as [_ ->]. right. by exists e.
Qed.





Lemma stayers_non_member auth e :
  alreadyJoined e auth = false → stayers auth e = Event.participants e.
Proof.
  intros Hnot%alreadyJoined_false. unfold stayers. revert Hnot.
  induction (Event.participants e) as [|p ps IH]; [done|].
  rewrite fmap_cons, not_elem_of_cons. intros [Hp Hps].
  rewrite filter_cons_True by done. f_equal. by apply IH.
Qed.

Lemma touch_after_membership now now' ps e :
  Event.with_updatedAt now
    (Event.with_participants (Event.participants e)
       (Event.with_updatedAt now' (Event.with_participants ps e)))
  = Event.with_updatedAt now e.
Proof. by destruct e. Qed.

(** Join and leave keep the userIds of an event free of duplicates. *)
Theorem membership_keeps_userIds_unique env (db : Store) id auth e :
  db !! id = Some e →
  NoDup (userIds e) →
  (∀ e', (joinEvent env db id auth).2 !! id = Some e' → NoDup (userIds e'))
  ∧ (∀ e', (leaveEvent env db id auth).2 !! id = Some e' → NoDup (userIds e')).
Proof.
  intros Hid Hnd. split; intros e'.
  - destruct (joinEvent_inv env db id auth)
      as [[_ ->]|(e0 & He0 & Hnot & _ & _ & ->)]; simpl.
    + rewrite Hid. by intros [= <-].
    + simplify_eq. rewrite lookup_insert_eq. intros [= <-].
      unfold userIds. simpl. rewrite fmap_app. apply NoDup_app.
      split; [done|]. split; [|apply NoDup_singleton].
      intros x Hx [->|[]%elem_of_nil]%elem_of_cons.
      by apply alreadyJoined_false in Hnot.
  - destruct (leaveEvent_inv env db id auth) as [[_ ->]|(e0 & He0 & ->)]; simpl.
    + rewrite Hid. by intros [= <-].
    + simplify_eq. rewrite lookup_insert_eq. intros [= <-].
      unfold userIds. simpl. eapply sublist_NoDup; [exact Hnd|].
      apply fmap_sublist, sublist_filter.
Qed.

Lemma membership_keeps_userIds_unique_witness :
  db1 !! 1%N = Some party
  ∧ NoDup (userIds party)
  ∧ (joinEvent env0 db1 1 bob).2 !! 1%N
    = Some (Event.with_updatedAt 1700000000000
              (Event.with_participants [aliceIn; joiner env0 bob] party))
  ∧ NoDup ["user_alice"; "user_bob"].
Proof.
  assert (H1 : db1 !! 1%N = Some party) by reflexivity.
  assert (H2 : NoDup (userIds party)) by (apply NoDup_singleton).
  assert (H3 : (joinEvent env0 db1 1 bob).2 !! 1%N
               = Some (Event.with_updatedAt 1700000000000
                         (Event.with_participants [aliceIn; joiner env0 bob] party)))
    by (vm_compute; reflexivity).
  refine (conj H1 (conj H2 (conj H3 _))).
  exact (proj1 (membership_keeps_userIds_unique env0 db1 1%N bob party H1 H2) _ H3).
Defined.

(** Round trip: a caller who joins with answer 200 and then leaves puts the
    participants back as they were; the leave answer reports the count from
    before the join, and only [updatedAt] has moved. *)
Theorem join_then_leave_restores env1 env2 (db : Store) id e auth :
  db !! id = Some e →
  status (joinEvent env1 db id auth).1 = 200 →
  leaveEvent env2 (joinEvent env1 db id auth).2 id auth
  = (mkResponse 200 (MembershipBody "Successfully left event"
                       (length (Event.participants e))),
     <[id := Event.with_updatedAt (Env.now env2) e]> db).
Proof.
  intros Hid Hst.
  destruct (joinEvent_inv env1 db id auth)
    as [[Hno _]|(e0 & He0 & Hnot & _ & Hv & Hjoin)]; [done|].
  simplify_eq. rewrite Hjoin. simpl.
  unfold leaveEvent. rewrite lookup_insert_eq. simpl.
  rewrite filter_app, filter_cons_False, filter_nil, app_nil_r by (simpl; tauto).
  fold (stayers auth e). rewrite (stayers_non_member auth e Hnot).
  unfold save. simpl.
  assert (validate (Event.with_participants (Event.participants e)
            (Event.with_updatedAt (Env.now env1)
               (Event.with_participants
                  (Event.participants e ++ [joiner env1 auth]) e))) = true) as ->.
  { revert Hv. by destruct e. }
  rewrite insert_insert_eq, touch_after_membership. done.
Qed.

Lemma join_then_leave_restores_witness :
  dbOf (meetup 2) !! 1%N = Some (meetup 2)
  ∧ status (joinEvent env0 (dbOf (meetup 2)) 1 bob).1 = 200
  ∧ leaveEvent env0 (joinEvent env0 (dbOf (meetup 2)) 1 bob).2 1 bob
    = (mkResponse 200 (MembershipBody "Successfully left event" 0),
       <[1%N := Event.with_updatedAt 1700000000000 (meetup 2)]> (dbOf (meetup 2))).
Proof.
  assert (H1 : dbOf (meetup 2) !! 1%N = Some (meetup 2)) by reflexivity.
  assert (H2 : status (joinEvent env0 (dbOf (meetup 2)) 1 bob).1 = 200)
    by reflexivity.
  refine (conj H1 (conj H2 _)).
  exact (join_then_leave_restores env0 env0 _ 1%N (meetup 2) bob H1 H2).
Defined.

(** Leaving twice is leaving once: the second leave answers 200 with the
    same count and stores the same participants. *)
Theorem leaveEvent_twice env1 env2 (db : Store) id e auth :
  db !! id = Some e →
  validate e = true →
  leaveEvent env2 (leaveEvent env1 db id auth).2 id auth
  = (mkResponse 200 (MembershipBody "Successfully left event"
                       (length (stayers auth e))),
     <[id := Event.with_updatedAt (Env.now env2)
               (Event.with_participants (stayers auth e) e)]> db).
Proof.
  intros Hid Hv.
  assert (validate (Event.with_participants (stayers auth e) e) = true) as Hv'
    by (by apply validate_leave).
  unfold leaveEvent at 2. rewrite Hid. fold (stayers auth e).
  rewrite save_Some by done. simpl.
  unfold leaveEvent. rewrite lookup_insert_eq. simpl.
  fold (stayers auth e).
  assert (filter (λ p, Participant.userId p ≠ Auth.userId auth) (stayers auth e)
          = stayers auth e) as ->.
  { unfold stayers. rewrite list_filter_filter. apply list_filter_iff. tauto. }
  unfold save. simpl.
  assert (validate (Event.with_participants (stayers auth e)
            (Event.with_updatedAt (Env.now env1)
               (Event.with_participants (stayers auth e) e))) = true) as ->.
  { revert Hv'. by destruct e. }
  by rewrite insert_insert_eq.
Qed.

Lemma leaveEvent_twice_witness :
  db1 !! 1%N = Some party
  ∧ validate party = true
  ∧ leaveEvent env0 (leaveEvent env0 db1 1 alice).2 1 alice
    = (mkResponse 200 (MembershipBody "Successfully left event" 0),
       <[1%N := Event.with_updatedAt 1700000000000 (meetup 5)]> db1).
Proof.
  assert (H1 : db1 !! 1%N = Some party) by reflexivity.
  assert (H2 : validate party = true) by reflexivity.
  refine (conj H1 (conj H2 _)).
  exact (leaveEvent_twice env0 env0 db1 1%N party alice H1 H2).
Defined.

Lemma joinAll_fills_to_capacity_witness :
  dbOf (meetup 2) !! 1%N = Some (meetup 2)
  ∧ Event.capacity (meetup 2) = Z.of_nat (length [(env0, alice); (env0, bob)])
  ∧ (joinAll (dbOf (meetup 2)) 1 [(env0, alice); (env0, bob)]).1
    = [mkResponse 200 (MembershipBody "Successfully joined event" 1);
       mkResponse 200 (MembershipBody "Successfully joined event" 2)]
  ∧ joinEvent env0 (joinAll (dbOf (meetup 2)) 1 [(env0, alice); (env0, bob)]).2 1 org1
    = (mkResponse 400 (ErrorBody "Event is full"),
       (joinAll (dbOf (meetup 2)) 1 [(env0, alice); (env0, bob)]).2).
Proof.
  assert (H1 : dbOf (meetup 2) !! 1%N = Some (meetup 2)) by reflexivity.
  assert (H2 : validate (meetup 2) = true) by reflexivity.
  assert (H3 : Event.participants (meetup 2) = []) by reflexivity.
  assert (H4 : (0 < Event.capacity (meetup 2))%Z) by (simpl; lia).
  assert (H5 : Event.capacity (meetup 2)
               = Z.of_nat (length [(env0, alice); (env0, bob)])) by reflexivity.
  assert (H6 : Forall (λ r : Env.t * Auth.t, Auth.userId r.2 ≠ "")
                      [(env0, alice); (env0, bob)])
    by (repeat constructor; discriminate).
  assert (H7 : NoDup ((Auth.userId ∘ snd <$> [(env0, alice); (env0, bob)])
                      ++ [Auth.userId org1]))
    by (apply (bool_decide_unpack _); vm_compute; reflexivity).
  pose proof (joinAll_fills_to_capacity (dbOf (meetup 2)) 1%N (meetup 2)
                [(env0, alice); (env0, bob)] env0 org1 H1 H2 H3 H4 H5 H6 H7)
    as [Ha Hb].
  exact (conj H1 (conj H5 (conj Ha Hb))).
Defined.

(** Join and leave write the participants and [updatedAt] of one event and
    nothing else: with those two erased, every document of the store is as
    before (title, dates, capacity, organizer, sessions, visibility,
    [createdAt]). *)
Theorem membership_writes_participants_only env (db : Store) id auth :
  membershipErased <$> (joinEvent env db id auth).2 = membershipErased <$> db
  ∧ membershipErased <$> (leaveEvent env db id auth).2 = membershipErased <$> db.
Proof.
  split.
  - destruct (joinEvent_inv env db id auth)
      as [[_ ->]|(e & Hid & _ & _ & _ & ->)]; [done|].
    simpl. rewrite fmap_insert. apply insert_id.
    by rewrite lookup_fmap, Hid.
  - destruct (leaveEvent_inv env db id auth) as [[_ ->]|(e & Hid & ->)]; [done|].
    simpl. rewrite fmap_insert. apply insert_id.
    by rewrite lookup_fmap, Hid.
Qed.

(** ** Sessions *)

Lemma addSession_inv dp env (db : Store) id auth b :
  (status (addSession dp env db id auth b).1 ≠ 201
   ∧ (addSession dp env db id auth b).2 = db)
  ∨ ∃ e s, db !! id = Some e
           ∧ Event.organizerId e = Auth.userId auth
           ∧ castSession (Env.freshId env) (newSession dp b) = Some s
           ∧ validate (Event.with_sessions (Event.sessions e ++ [s]) e) = true
           ∧ addSession dp env db id auth b
             = (mkResponse 201 (NewSessionBody (newSession dp b)),
                <[id := Event.with_updatedAt (Env.now env)
                          (Event.with_sessions (Event.sessions e ++ [s]) e)]> db).
Proof.
  unfold addSession. destruct (db !! id) as [e|] eqn:Hid; [|by left].
  case_bool_decide as Ho; [by left|].
  destruct (castSession _ _) as [s|] eqn:Hc; [|by left].
  destruct (save _ _ _ _) as [db'|] eqn:Hs; [|by left].
  apply save_inv in Hs as [Hv ->]. right. exists e, s.
  split; [done|]. split; [|done].
  destruct (decide (Event.organizerId e = Auth.userId auth)); [done|].
  by destruct Ho.
Qed.

Lemma hasSession_sessions_id sid e :
  hasSession sid e = true → is_Some (sessions_id sid (Event.sessions e)).
Proof.
  unfold hasSession, sessions_id.
  induction (Event.sessions e) as [|s ss IH]; [done|].
  simpl. destruct (bool_decide (Session._id s = sid)); [by eexists|].
  simpl. exact IH.
Qed.

Lemma removeSession_inv env (db : Store) sid auth :
  (status (removeSession env db sid auth).1 ≠ 200
   ∧ (removeSession env db sid auth).2 = db)
  ∨ ∃ eid e, findOwnedBySession db sid auth = Some (eid, e)
             ∧ db !! eid = Some e
             ∧ removeSession env db sid auth
               = (mkResponse 200 SuccessBody,
                  <[eid := Event.with_updatedAt (Env.now env)
                             (Event.with_sessions
                                (pullSession sid (Event.sessions e)) e)]> db).
Proof.
  unfold removeSession.
  destruct (findOwnedBySession db sid auth) as [[eid e]|] eqn:Hf; [|by left].
  pose proof (findOwnedBySession_Some _ _ _ _ _ Hf) as (Hid & _ & _).
  destruct (sessions_id sid (Event.sessions e)); [|by left].
  destruct (save _ _ _ _) as [db'|] eqn:Hs; [|by left].
  apply save_inv in Hs as [_ ->]. right. by exists eid, e.
Qed.

(** The session routes write the sessions and [updatedAt] of one event and
    nothing else: with those two erased, every document of the store is as
    before; no participant is added, removed or changed. *)
Theorem session_routes_write_sessions_only dp env (db : Store) id sid auth b u :
  sessionsErased <$> (addSession dp env db id auth b).2 = sessionsErased <$> db
  ∧ sessionsErased <$> (updateSession dp env db sid auth u).2 = sessionsErased <$> db
  ∧ sessionsErased <$> (removeSession env db sid auth).2 = sessionsErased <$> db.
Proof.
  split; [|split].
  - destruct (addSession_inv dp env db id auth b)
      as [[_ ->]|(e & s & Hid & _ & _ & _ & ->)]; [done|].
    simpl. rewrite fmap_insert. apply insert_id.
    by rewrite lookup_fmap, Hid.
  - destruct (updateSession_inv dp env db sid auth u)
      as [(st & msg & ->)|(eid & e & s & s' & Hid & _ & _ & ->)]; [done|].
    simpl. rewrite fmap_insert. apply insert_id.
    by rewrite lookup_fmap, Hid.
  - destruct (removeSession_inv env db sid auth)
      as [[_ ->]|(eid & e & _ & Hid & ->)]; [done|].
    simpl. rewrite fmap_insert. apply insert_id.
    by rewrite lookup_fmap, Hid.
Qed.





(** The update handler never gives its second 404, "Session not found":
    the event it loads was selected for holding the session, so the lookup
    in the event cannot miss. *)
Theorem updateSession_never_plain_not_found dp env (db : Store) sid auth u :
  body (updateSession dp env db sid auth u).1 ≠ ErrorBody "Session not found".
Proof.
  unfold updateSession.
  destruct (findOwnedBySession db sid auth) as [[eid e]|] eqn:Hf; [|discriminate].
  apply findOwnedBySession_Some in Hf as (_ & Hhas & _).
  destruct (hasSession_sessions_id sid e Hhas) as [s ->].
  destruct (assignSession dp s u); [|discriminate].
  destruct (save _ _ _ _); discriminate.
Qed.

Lemma replaceSession_split sid s ss :
  sessions_id sid ss = Some s →
  ∃ l1 l2, ss = l1 ++ s :: l2
           ∧ Forall (λ x, Session._id x ≠ sid) l1
           ∧ Session._id s = sid
           ∧ ∀ s', replaceSession sid s' ss = l1 ++ s' :: l2.
Proof.
  unfold sessions_id. induction ss as [|x ss IH]; [done|].
  simpl. case_bool_decide as Hx.
  - intros [= ->]. exists [], ss. by repeat split.
  - intros (l1 & l2 & -> & Hl1 & Hs & Hrep)%IH.
    exists (x :: l1), l2. split; [done|]. split; [by constructor|].
    split; [done|]. intros s'. simpl. by rewrite Hrep.
Qed.

(** An update answered 200 changes one position of one event: the first
    session with the identifier of the request is replaced by its merge
    with the patch, which is also the body of the answer; the sessions
    before and after it stay as they are. *)
Theorem updateSession_changes_one_session dp env (db : Store) sid auth u :
  status (updateSession dp env db sid auth u).1 = 200 →
  ∃ eid e l1 s l2 s',
    db !! eid = Some e
    ∧ Event.organizerId e = Auth.userId auth
    ∧ Event.sessions e = l1 ++ s :: l2
    ∧ Forall (λ x, Session._id x ≠ sid) l1
    ∧ Session._id s = sid
    ∧ assignSession dp s u = Some s'
    ∧ updateSession dp env db sid auth u
      = (mkResponse 200 (SessionBody s'),
         <[eid := Event.with_updatedAt (Env.now env)
                    (Event.with_sessions (l1 ++ s' :: l2) e)]> db).
Proof.
  unfold updateSession.
  destruct (findOwnedBySession db sid auth) as [[eid e]|] eqn:Hf; [|done].
  apply findOwnedBySession_Some in Hf as (Hid & _ & Ho).
  destruct (sessions_id sid (Event.sessions e)) as [s|] eqn:Hs; [|done].
  destruct (assignSession dp s u) as [s'|] eqn:Ha; [|done].
  destruct (replaceSession_split sid s _ Hs) as (l1 & l2 & Hss & Hl1 & Hsid & Hrep).
  rewrite Hrep.
  destruct (save _ _ _ _) as [db'|] eqn:Hsave; [|done].
  apply save_inv in Hsave as [_ ->]. intros _.
  by exists eid, e, l1, s, l2, s'.
Qed.

Lemma updateSession_changes_one_session_witness :
  status (updateSession sampleParse env0 db0 7 org1 (endAt (JNumber 30))).1 = 200
  ∧ ∃ eid e l1 s l2 s',
      db0 !! eid = Some e
      ∧ Event.sessions e = l1 ++ s :: l2
      ∧ assignSession sampleParse s (endAt (JNumber 30)) = Some s'
      ∧ (updateSession sampleParse env0 db0 7 org1 (endAt (JNumber 30))).2
        = <[eid := Event.with_updatedAt (Env.now env0)
                     (Event.with_sessions (l1 ++ s' :: l2) e)]> db0.
Proof.
  assert (H : status (updateSession sampleParse env0 db0 7 org1
                        (endAt (JNumber 30))).1 = 200) by reflexivity.
  refine (conj H _).
  destruct (updateSession_changes_one_session sampleParse env0 db0 7%N org1
              (endAt (JNumber 30)) H)
    as (eid & e & l1 & s & l2 & s' & H1 & _ & H2 & _ & _ & H3 & H4).
  exists eid, e, l1, s, l2, s'. rewrite H4. done.
Defined.







Lemma replaceSession_same sid s ss :
  sessions_id sid ss = Some s → replaceSession sid s ss = ss.
Proof.
  intros (l1 & l2 & -> & _ & _ & Hrep)%replaceSession_split. apply Hrep.
Qed.

Lemma assignSession_no_key dp s :
  assignSession dp s noSessionPatch = Some s.
Proof. by destruct s. Qed.

(** An update whose body has none of the session keys is answered 200 with
    the session as stored; the sessions stay as they are and only
    [updatedAt] moves. *)
Theorem updateSession_empty_patch dp env (db : Store) sid auth eid e :
  findOwnedBySession db sid auth = Some (eid, e) →
  validate e = true →
  ∃ s, s ∈ Event.sessions e ∧ Session._id s = sid
       ∧ updateSession dp env db sid auth noSessionPatch
         = (mkResponse 200 (SessionBody s),
            <[eid := Event.with_updatedAt (Env.now env) e]> db).
Proof.
  intros Hf Hv.
  pose proof (findOwnedBySession_Some _ _ _ _ _ Hf) as (_ & Hhas & _).
  destruct (hasSession_sessions_id sid e Hhas) as [s Hs].
  exists s. destruct (sessions_id_Some _ _ _ Hs) as [Hin Hsid].
  split; [done|]. split; [done|].
  unfold updateSession. rewrite Hf, Hs, assignSession_no_key.
  rewrite (replaceSession_same _ _ _ Hs).
  assert (Event.with_sessions (Event.sessions e) e = e) as -> by (by destruct e).
  by rewrite save_Some.
Qed.

Lemma updateSession_empty_patch_witness :
  findOwnedBySession db0 7 org1 = Some (1%N, meetup 0)
  ∧ validate (meetup 0) = true
  ∧ ∃ s, updateSession sampleParse env0 db0 7 org1 noSessionPatch
         = (mkResponse 200 (SessionBody s),
            <[1%N := Event.with_updatedAt (Env.now env0) (meetup 0)]> db0).
Proof.
  assert (H1 : findOwnedBySession db0 7 org1 = Some (1%N, meetup 0))
    by (vm_compute; reflexivity).
  assert (H2 : validate (meetup 0) = true) by reflexivity.
  refine (conj H1 (conj H2 _)).
  destruct (updateSession_empty_patch sampleParse env0 db0 7%N org1 1%N
              (meetup 0) H1 H2) as (s & _ & _ & Hs).
  by exists s.
Defined.

Lemma replaceSession_invalid sid s s' ss :
  sessions_id sid ss = Some s →
  validateSession s' = false →
  forallb validateSession (replaceSession sid s' ss) = false.
Proof.
  intros (l1 & l2 & -> & _ & _ & Hrep)%replaceSession_split Hs'.
  rewrite Hrep, forallb_app. simpl. rewrite Hs'. by rewrite andb_false_r.
Qed.

(** An update that would blank the title, or whose [startTime] or
    [endTime] does not make a date, is answered 500 "Failed to update
    session" and the store is as before. *)
Theorem updateSession_rejects_bad_value dp env (db : Store) sid auth u eid e :
  findOwnedBySession db sid auth = Some (eid, e) →
  SessionPatch.title u = Some ""
  ∨ (∃ v, SessionPatch.startTime u = Some v ∧ castDate dp v = None)
  ∨ (∃ v, SessionPatch.endTime u = Some v ∧ castDate dp v = None) →
  updateSession dp env db sid auth u
  = (mkResponse 500 (ErrorBody "Failed to update session"), db).
Proof.
  intros Hf Hbad.
  pose proof (findOwnedBySession_Some _ _ _ _ _ Hf) as (_ & Hhas & _).
  destruct (hasSession_sessions_id sid e Hhas) as [s Hs].
  unfold updateSession. rewrite Hf, Hs.
  destruct (assignSession dp s u) as [s'|] eqn:Ha; [|done].
  assert (validateSession s' = false) as Hinv.
  { revert Ha. unfold assignSession.
    destruct Hbad as [Ht|[(v & Hv & Hc)|(v & Hv & Hc)]].
    - destruct (from_option _ _ (SessionPatch.startTime u)); [|done].
      destruct (from_option _ _ (SessionPatch.endTime u)); [|done].
      intros [= <-]. unfold validateSession. simpl. by rewrite Ht.
    - rewrite Hv. simpl. by rewrite Hc.
    - rewrite Hv. simpl. rewrite Hc.
      by destruct (from_option _ _ (SessionPatch.startTime u)). }
  unfold save, validate. simpl.
  rewrite (replaceSession_invalid _ _ _ _ Hs Hinv).
  by rewrite andb_false_r.
Qed.

Lemma updateSession_rejects_bad_value_witness :
  findOwnedBySession db0 7 org1 = Some (1%N, meetup 0)
  ∧ castDate sampleParse (JString "next week") = None
  ∧ updateSession sampleParse env0 db0 7 org1 (endAt (JString "next week"))
    = (mkResponse 500 (ErrorBody "Failed to update session"), db0).
Proof.
  assert (H1 : findOwnedBySession db0 7 org1 = Some (1%N, meetup 0))
    by (vm_compute; reflexivity).
  assert (H2 : castDate sampleParse (JString "next week") = None) by reflexivity.
  refine (conj H1 (conj H2 _)).
  apply (updateSession_rejects_bad_value sampleParse env0 db0 7%N org1
           (endAt (JString "next week")) 1%N (meetup 0) H1).
  right. right. exists (JString "next week"). split; [reflexivity|exact H2].
Defined.

Lemma addSession_missing_field_witness :
  db0 !! 1%N = Some (meetup 0)
  ∧ Event.organizerId (meetup 0) = Auth.userId org1
  ∧ addSession sampleParse env0 db0 1 org1
      (SessionFields.mk None None (JNumber 10) (JNumber 20) None None None)
    = (mkResponse 500 (ErrorBody "Failed to create session"), db0).
Proof.
  assert (H1 : db0 !! 1%N = Some (meetup 0)) by reflexivity.
  assert (H2 : Event.organizerId (meetup 0) = Auth.userId org1) by reflexivity.
  refine (conj H1 (conj H2 _)).
  apply (addSession_missing_field sampleParse env0 db0 1%N (meetup 0) org1 _ H1 H2).
  left. reflexivity.
Defined.

(** ** Updating, deleting and reading an event *)

(** The update handler changes nothing for a caller who is not the
    organizer of a stored event under that identifier: the answer is 404
    "Event not found or not authorized". *)
Theorem updateEvent_only_by_organizer dp env (db : Store) id auth u :
  (∀ e, db !! id = Some e → Event.organizerId e ≠ Auth.userId auth) →
  updateEvent dp env db id auth u
  = (mkResponse 404 (ErrorBody "Event not found or not authorized"), db).
Proof.
  intros Hnot. unfold updateEvent. destruct (db !! id) as [e|]; [|done].
  rewrite bool_decide_eq_false_2; [done|]. by apply Hnot.
Qed.

Lemma updateEvent_only_by_organizer_witness :
  (∀ e, db0 !! 1%N = Some e → Event.organizerId e ≠ Auth.userId alice)
  ∧ updateEvent sampleParse env0 db0 1 alice takeover
    = (mkResponse 404 (ErrorBody "Event not found or not authorized"), db0).
Proof.
  assert (H : ∀ e, db0 !! 1%N = Some e → Event.organizerId e ≠ Auth.userId alice).
  { unfold db0. by intros e [_ <-]%lookup_singleton_Some. }
  refine (conj H _).
  exact (updateEvent_only_by_organizer sampleParse env0 db0 1%N alice takeover H).
Defined.

(** Once an update answered 200 has put another userId in [organizerId],
    the former organizer is refused by the update handler (404) and by the
    add-session handler (403) on that event. *)
Theorem updateEvent_handover_locks_out dp env env2 (db : Store) id auth up o up2 b :
  status (updateEvent dp env db id auth up).1 = 200 →
  EventPatch.organizerId up = Some o →
  o ≠ Auth.userId auth →
  updateEvent dp env2 (updateEvent dp env db id auth up).2 id auth up2
  = (mkResponse 404 (ErrorBody "Event not found or not authorized"),
     (updateEvent dp env db id auth up).2)
  ∧ addSession dp env2 (updateEvent dp env db id auth up).2 id auth b
    = (mkResponse 403 (ErrorBody "Not authorized to modify this event"),
       (updateEvent dp env db id auth up).2).
Proof.
  intros Hst Ho Hne.
  destruct (updateEvent_inv dp env db id auth up)
    as [[Hno _]|(e & e' & Hid & Hp & _ & ->)]; [done|].
  apply applyPatch_organizerId in Hp. rewrite Ho in Hp. simpl in Hp.
  simpl. unfold updateEvent, addSession. rewrite lookup_insert_eq, Hp.
  rewrite bool_decide_eq_false_2 by done.
  by rewrite bool_decide_eq_true_2.
Qed.

Lemma updateEvent_handover_locks_out_witness :
  status (updateEvent sampleParse env0 db0 1 org1 takeover).1 = 200
  ∧ EventPatch.organizerId takeover = Some "mallory"
  ∧ "mallory" ≠ Auth.userId org1
  ∧ updateEvent sampleParse env0
      (updateEvent sampleParse env0 db0 1 org1 takeover).2 1 org1 noEventPatch
    = (mkResponse 404 (ErrorBody "Event not found or not authorized"),
       (updateEvent sampleParse env0 db0 1 org1 takeover).2).
Proof.
  assert (H1 : status (updateEvent sampleParse env0 db0 1 org1 takeover).1 = 200)
    by reflexivity.
  assert (H2 : EventPatch.organizerId takeover = Some "mallory") by reflexivity.
  assert (H3 : "mallory" ≠ Auth.userId org1) by discriminate.
  refine (conj H1 (conj H2 (conj H3 _))).
  exact (proj1 (updateEvent_handover_locks_out sampleParse env0 env0 db0 1%N org1
                  takeover "mallory" noEventPatch backwards H1 H2 H3)).
Defined.

(** The organizer lowers the capacity of a valid event to the number of
    its participants or below: the update is answered 200, the
    participants stay, and a later join by a new caller is answered "Event
    is full". *)
Theorem lowering_capacity_keeps_participants
    dp env env2 (db : Store) id e auth c caller :
  db !! id = Some e →
  Event.organizerId e = Auth.userId auth →
  validate e = true →
  (c ≤ Z.of_nat (length (Event.participants e)))%Z →
  Auth.userId caller ∉ userIds e →
  updateEvent dp env db id auth (capacityPatch c)
  = (mkResponse 200 (EventBody id (withCapacity c (Env.now env) e)),
     <[id := withCapacity c (Env.now env) e]> db)
  ∧ Event.participants (withCapacity c (Env.now env) e) = Event.participants e
  ∧ joinEvent env2 (<[id := withCapacity c (Env.now env) e]> db) id caller
    = (mkResponse 400 (ErrorBody "Event is full"),
       <[id := withCapacity c (Env.now env) e]> db).
Proof.
  intros Hid Ho Hv Hc Hnot. split; [|split; [done|]].
  - unfold updateEvent, findByIdAndUpdate. rewrite Hid.
    rewrite bool_decide_eq_true_2 by done.
    unfold applyPatch, capacityPatch. simpl. fold (withCapacity c (Env.now env) e).
    assert (validate (withCapacity c (Env.now env) e) = true) as -> by done.
    done.
  - unfold joinEvent. rewrite lookup_insert_eq.
    assert (alreadyJoined (withCapacity c (Env.now env) e) caller = false) as ->
      by (by apply alreadyJoined_false).
    simpl.
    destruct (Z.geb_spec (Z.of_nat (length (Event.participants e))) c);
      [done|lia].
Qed.

Lemma lowering_capacity_keeps_participants_witness :
  db1 !! 1%N = Some party
  ∧ (1 ≤ Z.of_nat (length (Event.participants party)))%Z
  ∧ (Auth.userId bob ∉ userIds party)
  ∧ updateEvent sampleParse env0 db1 1 org1 (capacityPatch 1)
    = (mkResponse 200 (EventBody 1 (withCapacity 1 (Env.now env0) party)),
       <[1%N := withCapacity 1 (Env.now env0) party]> db1)
  ∧ joinEvent env0 (<[1%N := withCapacity 1 (Env.now env0) party]> db1) 1 bob
    = (mkResponse 400 (ErrorBody "Event is full"),
       <[1%N := withCapacity 1 (Env.now env0) party]> db1).
Proof.
  assert (H1 : db1 !! 1%N = Some party) by reflexivity.
  assert (H2 : Event.organizerId party = Auth.userId org1) by reflexivity.
  assert (H3 : validate party = true) by reflexivity.
  assert (H4 : (1 ≤ Z.of_nat (length (Event.participants party)))%Z)
    by (simpl; lia).
  assert (H5 : Auth.userId bob ∉ userIds party).
  { intros [H|[]%elem_of_nil]%elem_of_cons. discriminate H. }
  pose proof (lowering_capacity_keeps_participants sampleParse env0 env0 db1 1%N
                party org1 1%Z bob H1 H2 H3 H4 H5) as (Ha & _ & Hb).
  exact (conj H1 (conj H4 (conj H5 (conj Ha Hb)))).
Defined.

(** After the delete handler has run on an identifier, every route that
    takes the identifier answers 404 and changes nothing; the sessions of
    the deleted event are gone with it, so the session routes answer 404
    for an identifier that no other event holds. *)
Theorem deleted_event_is_gone dp env (db : Store) id sid a caller b up u :
  getEvent (deleteEvent db id a).2 id caller
  = (mkResponse 404 (ErrorBody "Event not found"), (deleteEvent db id a).2)
  ∧ joinEvent env (deleteEvent db id a).2 id caller
    = (mkResponse 404 (ErrorBody "Event not found"), (deleteEvent db id a).2)
  ∧ leaveEvent env (deleteEvent db id a).2 id caller
    = (mkResponse 404 (ErrorBody "Event not found"), (deleteEvent db id a).2)
  ∧ addSession dp env (deleteEvent db id a).2 id caller b
    = (mkResponse 404 (ErrorBody "Event not found"), (deleteEvent db id a).2)
  ∧ updateEvent dp env (deleteEvent db id a).2 id caller up
    = (mkResponse 404 (ErrorBody "Event not found or not authorized"),
       (deleteEvent db id a).2)
  ∧ deleteEvent (deleteEvent db id a).2 id caller
    = (mkResponse 404 (ErrorBody "Event not found"), (deleteEvent db id a).2)
  ∧ ((∀ k e, k ≠ id → db !! k = Some e → hasSession sid e = false) →
     updateSession dp env (deleteEvent db id a).2 sid caller u
     = (mkResponse 404 (ErrorBody "Session not found or not authorized"),
        (deleteEvent db id a).2)
     ∧ removeSession env (deleteEvent db id a).2 sid caller
       = (mkResponse 404 (ErrorBody "Session not found or not authorized"),
          (deleteEvent db id a).2)).
Proof.
  assert ((deleteEvent db id a).2 !! id = None) as Hgone.
  { unfold deleteEvent. destruct (db !! id) eqn:Hid; simpl;
      [apply lookup_delete_eq|done]. }
  assert (∀ k e, k ≠ id → (deleteEvent db id a).2 !! k = Some e →
                 db !! k = Some e) as Hsub.
  { intros k e Hne. unfold deleteEvent. destruct (db !! id); simpl; [|done].
    by rewrite lookup_delete_ne. }
  generalize dependent (deleteEvent db id a).2. intros db1 Hgone Hsub.
  unfold getEvent, joinEvent, leaveEvent, addSession, updateEvent, deleteEvent.
  rewrite !Hgone. do 6 (split; [done|]).
  intros Hother.
  assert (findOwnedBySession db1 sid caller = None) as Hf.
  { apply findOwnedBySession_None. intros k e Hk Hhas.
    destruct (decide (k = id)) as [->|Hne]; [by rewrite Hgone in Hk|].
    rewrite (Hother _ _ Hne (Hsub _ _ Hne Hk)) in Hhas. discriminate. }
  unfold updateSession, removeSession. by rewrite Hf.
Qed.

Lemma deleted_event_is_gone_witness :
  is_Some (db0 !! 1%N)
  ∧ (∀ k e, k ≠ 1%N → db0 !! k = Some e → hasSession 7 e = false)
  ∧ getEvent (deleteEvent db0 1 alice).2 1 org1
    = (mkResponse 404 (ErrorBody "Event not found"), (deleteEvent db0 1 alice).2)
  ∧ updateSession sampleParse env0 (deleteEvent db0 1 alice).2 7 org1 noSessionPatch
    = (mkResponse 404 (ErrorBody "Session not found or not authorized"),
       (deleteEvent db0 1 alice).2).
Proof.
  assert (H0 : is_Some (db0 !! 1%N)) by (by eexists).
  assert (H1 : ∀ k e, k ≠ 1%N → db0 !! k = Some e → hasSession 7 e = false).
  { unfold db0. intros k e Hne [Hk _]%lookup_singleton_Some. by destruct Hne. }
  pose proof (deleted_event_is_gone sampleParse env0 db0 1%N 7%N alice org1
                backwards noEventPatch noSessionPatch)
    as (Ha & _ & _ & _ & _ & _ & Hb).
  exact (conj H0 (conj H1 (conj Ha (proj1 (Hb H1))))).
Defined.

(** ** Reading and listing *)

Lemma ownedMatches_elem_of (db : Store) auth d :
  d ∈ ownedMatches db auth ↔
  db !! d.1 = Some d.2 ∧ Event.organizerId d.2 = Auth.userId auth.
Proof.
  unfold ownedMatches. rewrite merge_sort_Permutation, list_elem_of_filter.
  destruct d as [k e]. rewrite elem_of_map_to_list. unfold ownedFilter.
  simpl. tauto.
Qed.

Lemma joinedMatches_elem_of (db : Store) auth d :
  d ∈ joinedMatches db auth ↔
  db !! d.1 = Some d.2 ∧ alreadyJoined d.2 auth = true.
Proof.
  unfold joinedMatches. rewrite merge_sort_Permutation, list_elem_of_filter.
  destruct d as [k e]. rewrite elem_of_map_to_list, alreadyJoined_true.
  unfold joinedFilter. simpl. tauto.
Qed.

(** The read handler checks neither the organizer nor [isPublic]: an event
    that is not public and belongs to someone else, which neither listing
    shows to the caller, is returned whole to any caller who has its
    identifier. *)
Theorem getEvent_reads_hidden_event (db : Store) id e auth :
  db !! id = Some e →
  Event.isPublic e = false →
  Event.organizerId e ≠ Auth.userId auth →
  ((id, e) ∉ publicMatches db auth)
  ∧ ((id, e) ∉ ownedMatches db auth)
  ∧ getEvent db id auth = (mkResponse 200 (EventBody id e), db).
Proof.
  intros Hid Hpriv Hne. split; [|split].
  - rewrite publicMatches_elem_of. simpl. rewrite Hpriv. by intros (_ & ? & _).
  - rewrite ownedMatches_elem_of. simpl. by intros [_ ?].
  - unfold getEvent. by rewrite Hid.
Qed.

Lemma getEvent_reads_hidden_event_witness :
  db0 !! 1%N = Some (meetup 0)
  ∧ Event.isPublic (meetup 0) = false
  ∧ Event.organizerId (meetup 0) ≠ Auth.userId alice
  ∧ getEvent db0 1 alice = (mkResponse 200 (EventBody 1 (meetup 0)), db0).
Proof.
  assert (H1 : db0 !! 1%N = Some (meetup 0)) by reflexivity.
  assert (H2 : Event.isPublic (meetup 0) = false) by reflexivity.
  assert (H3 : Event.organizerId (meetup 0) ≠ Auth.userId alice) by discriminate.
  refine (conj H1 (conj H2 (conj H3 _))).
  exact (proj2 (proj2 (getEvent_reads_hidden_event db0 1%N (meetup 0) alice H1 H2 H3))).
Defined.

(** The listing of the caller's own events has every stored event of the
    caller and no other, each once, newest first; unlike the public
    listing it is not cut at 20. *)
Theorem ownedEvents_lists_all_own (db : Store) auth :
  ownedEvents db auth = (mkResponse 200 (EventsBody (ownedMatches db auth)), db)
  ∧ (∀ d, d ∈ ownedMatches db auth ↔
          (db !! d.1 = Some d.2 ∧ Event.organizerId d.2 = Auth.userId auth))
  ∧ NoDup (ownedMatches db auth)
  ∧ Sorted newestFirst (ownedMatches db auth)
  ∧ length (ownedMatches db auth)
    = length (filter (ownedFilter auth) (map_to_list db)).
Proof.
  split; [done|]. split; [apply ownedMatches_elem_of|].
  unfold ownedMatches. split; [|split].
  - rewrite merge_sort_Permutation. apply NoDup_filter, NoDup_map_to_list.
  - apply (Sorted_merge_sort newestFirst).
  - by rewrite merge_sort_Permutation.
Qed.

(** The organizer of the twenty-five sample events gets all of them. *)
Example ownedEvents_beyond_20 : length (ownedMatches crowd org1) = 25.
Proof. vm_compute. reflexivity. Qed.

(** The listing of joined events has exactly the stored events for which
    the join handler would answer "Already joined".  An event is in it
    right after the caller's join is answered 200, and is out of it right
    after the caller's leave is answered 200. *)
Theorem joinedEvents_tracks_membership env (db : Store) id auth :
  (∀ d, d ∈ joinedMatches db auth ↔
        (db !! d.1 = Some d.2 ∧ alreadyJoined d.2 auth = true))
  ∧ (status (joinEvent env db id auth).1 = 200 →
     ∃ e', (id, e') ∈ joinedMatches (joinEvent env db id auth).2 auth)
  ∧ (status (leaveEvent env db id auth).1 = 200 →
     ∀ e', (id, e') ∉ joinedMatches (leaveEvent env db id auth).2 auth).
Proof.
  split; [apply joinedMatches_elem_of|]. split.
  - destruct (joinEvent_inv env db id auth)
      as [[Hno _]|(e & Hid & _ & _ & _ & ->)]; [done|].
    intros _. eexists. rewrite joinedMatches_elem_of. simpl.
    split; [apply lookup_insert_eq|].
    apply alreadyJoined_true. simpl. rewrite fmap_app.
    apply elem_of_app. right. apply list_elem_of_here.
  - destruct (leaveEvent_inv env db id auth) as [[Hno _]|(e & Hid & ->)]; [done|].
    intros _ e'. rewrite joinedMatches_elem_of. simpl.
    rewrite lookup_insert_eq. intros [[= <-] Hin%alreadyJoined_true].
    simpl in Hin. apply list_elem_of_fmap in Hin as (p & Hp & Hin).
    apply list_elem_of_filter in Hin as [Hne _]. by apply Hne.
Qed.

Lemma joinedEvents_tracks_membership_witness :
  status (joinEvent env0 (dbOf (meetup 2)) 1 bob).1 = 200
  ∧ (∃ e', (1%N, e') ∈ joinedMatches (joinEvent env0 (dbOf (meetup 2)) 1 bob).2 bob)
  ∧ status (leaveEvent env0 db1 1 alice).1 = 200
  ∧ (1%N, party) ∉ joinedMatches (leaveEvent env0 db1 1 alice).2 alice.
Proof.
  assert (H1 : status (joinEvent env0 (dbOf (meetup 2)) 1 bob).1 = 200)
    by reflexivity.
  assert (H2 : status (leaveEvent env0 db1 1 alice).1 = 200) by reflexivity.
  refine (conj H1 (conj _ (conj H2 _))).
  - exact (proj1 (proj2 (joinedEvents_tracks_membership env0 (dbOf (meetup 2))
                           1%N bob)) H1).
  - exact (proj2 (proj2 (joinedEvents_tracks_membership env0 db1 1%N alice))
             H2 party).
Defined.

(** No event is matched both by the caller's own listing and by the
    caller's public query, and every stored public event is matched by one
    of the two (the public answer then keeps the first 20 matches). *)
Theorem owned_and_public_split (db : Store) auth :
  (∀ d, d ∈ ownedMatches db auth → d ∉ publicMatches db auth)
  ∧ (∀ id e, db !! id = Some e → Event.isPublic e = true →
             (id, e) ∈ ownedMatches db auth ∨ (id, e) ∈ publicMatches db auth).
Proof.
  split.
  - intros d [_ Ho]%ownedMatches_elem_of (_ & _ & Hne)%publicMatches_elem_of.
    by apply Hne.
  - intros id e Hid Hpub. rewrite ownedMatches_elem_of, publicMatches_elem_of.
    simpl. destruct (decide (Event.organizerId e = Auth.userId auth)); auto.
Qed.

Lemma owned_and_public_split_witness :
  crowd !! 3%N = Some (publicAt 3)
  ∧ Event.isPublic (publicAt 3) = true
  ∧ ((3%N, publicAt 3) ∈ ownedMatches crowd alice
     ∨ (3%N, publicAt 3) ∈ publicMatches crowd alice)
  ∧ ((3%N, publicAt 3) ∈ ownedMatches crowd org1 →
     (3%N, publicAt 3) ∉ publicMatches crowd org1).
Proof.
  assert (H1 : crowd !! 3%N = Some (publicAt 3)) by (vm_compute; reflexivity).
  assert (H2 : Event.isPublic (publicAt 3) = true) by reflexivity.
  refine (conj H1 (conj H2 (conj _ _))).
  - exact (proj2 (owned_and_public_split crowd alice) 3%N (publicAt 3) H1 H2).
  - exact (proj1 (owned_and_public_split crowd org1) (3%N, publicAt 3)).
Defined.

(** ** Creating an event *)

(** The create handler either stores the new document under the fresh
    identifier, which was free, and answers 201, or answers something else
    and leaves the store alone. *)
Lemma createEvent_inv {V} env sessionId (db : Store) auth (r : JoiResult V) :
  (create_status (createEvent env sessionId db auth r).1 ≠ 201
   ∧ (createEvent env sessionId db auth r).2 = db)
  ∨ ∃ v, r = JoiValue v
         ∧ trim (EventValue.title v) ≠ ""
         ∧ validate (newEvent env sessionId auth v) = true
         ∧ db !! Env.freshId env = None
         ∧ createEvent env sessionId db auth r
           = (mkCreateResponse 201
                (CreatedBody (Env.freshId env) (newEvent env sessionId auth v)),
              <[Env.freshId env := newEvent env sessionId auth v]> db).
Proof.
  destruct r as [details|v]; [by left|]. unfold createEvent.
  destruct (bool_decide (EventValue.title v = "")
            || bool_decide (trim (EventValue.title v) = "")) eqn:Hor; [by left|].
  apply orb_false_iff in Hor as [_ Htrim%bool_decide_eq_false].
  destruct (validate (newEvent env sessionId auth v)) eqn:Hv; [|by left].
  destruct (db !! Env.freshId env) eqn:Hfree; [by left|].
  right. by exists v.
Qed.

(** Whatever the request, the create handler changes no document that is
    already stored, and it changes the store only when it answers 201. *)
Theorem createEvent_never_overwrites {V} env sessionId (db : Store) auth
    (r : JoiResult V) :
  (∀ k e, db !! k = Some e →
          (createEvent env sessionId db auth r).2 !! k = Some e)
  ∧ (create_status (createEvent env sessionId db auth r).1 ≠ 201 →
     (createEvent env sessionId db auth r).2 = db).
Proof.
  destruct (createEvent_inv env sessionId db auth r)
    as [[Hno ->]|(v & -> & _ & _ & Hfree & ->)]; [done|].
  simpl. split; [|done]. intros k e Hk.
  rewrite lookup_insert_ne; [done|]. intros <-. by rewrite Hfree in Hk.
Qed.

Lemma createEvent_never_overwrites_witness :
  db0 !! 1%N = Some (meetup 0)
  ∧ create_status
      (createEvent (V := JsValue) (Env.mk 1700000000000 1) (sessionIdsFrom 900)
         db0 alice (JoiValue launch)).1 ≠ 201
  ∧ (createEvent (V := JsValue) (Env.mk 1700000000000 1) (sessionIdsFrom 900)
       db0 alice (JoiValue launch)).2 !! 1%N = Some (meetup 0)
  ∧ (createEvent (V := JsValue) (Env.mk 1700000000000 1) (sessionIdsFrom 900)
       db0 alice (JoiValue launch)).2 = db0.
Proof.
  assert (H1 : db0 !! 1%N = Some (meetup 0)) by reflexivity.
  assert (H2 : create_status
                 (createEvent (V := JsValue) (Env.mk 1700000000000 1)
                    (sessionIdsFrom 900) db0 alice (JoiValue launch)).1 ≠ 201)
    by (vm_compute; discriminate).
  pose proof (createEvent_never_overwrites (V := JsValue)
                (Env.mk 1700000000000 1) (sessionIdsFrom 900) db0 alice
                (JoiValue launch)) as [Ha Hb].
  exact (conj H1 (conj H2 (conj (Ha _ _ H1) (Hb H2)))).
Defined.





(** An event created with capacity 0, the default of the schema, can be
    joined by nobody: right after the 201, every join on it, by any
    caller, is answered "Event is full". *)
Theorem created_with_capacity_zero_admits_nobody {V} env env2 sessionId
    (db : Store) auth v caller :
  create_status (createEvent (V := V) env sessionId db auth (JoiValue v)).1 = 201 →
  EventValue.capacity v = 0%Z →
  joinEvent env2 (createEvent (V := V) env sessionId db auth (JoiValue v)).2
            (Env.freshId env) caller
  = (mkResponse 400 (ErrorBody "Event is full"),
     (createEvent (V := V) env sessionId db auth (JoiValue v)).2).
Proof.
  intros Hst Hcap.
  destruct (createEvent_inv (V := V) env sessionId db auth (JoiValue v))
    as [[Hno _]|(v' & [= <-] & _ & _ & _ & ->)]; [done|].
  simpl. unfold joinEvent. rewrite lookup_insert_eq.
  unfold alreadyJoined, newEvent. simpl. rewrite Hcap. done.
Qed.

Lemma created_with_capacity_zero_admits_nobody_witness :
  create_status (createEvent (V := JsValue) (Env.mk 1700000000000 2)
                   (sessionIdsFrom 900) db0 alice (JoiValue launch)).1 = 201
  ∧ EventValue.capacity launch = 0%Z
  ∧ joinEvent env0
      (createEvent (V := JsValue) (Env.mk 1700000000000 2) (sessionIdsFrom 900)
         db0 alice (JoiValue launch)).2 2 bob
    = (mkResponse 400 (ErrorBody "Event is full"),
       (createEvent (V := JsValue) (Env.mk 1700000000000 2) (sessionIdsFrom 900)
          db0 alice (JoiValue launch)).2).
Proof.
  assert (H1 : create_status
                 (createEvent (V := JsValue) (Env.mk 1700000000000 2)
                    (sessionIdsFrom 900) db0 alice (JoiValue launch)).1 = 201)
    by reflexivity.
  assert (H2 : EventValue.capacity launch = 0%Z) by reflexivity.
  refine (conj H1 (conj H2 _)).
  exact (created_with_capacity_zero_admits_nobody (V := JsValue)
           (Env.mk 1700000000000 2) env0 (sessionIdsFrom 900) db0 alice launch
           bob H1 H2).
Defined.

(** Right after a 201 the new event is in the creator's own listing, any
    caller can read it, and it is matched by another caller's public query
    exactly when the value had [isPublic] true. *)
Theorem created_event_is_listed {V} env sessionId (db : Store) auth v other :
  create_status (createEvent (V := V) env sessionId db auth (JoiValue v)).1 = 201 →
  Auth.userId other ≠ Auth.userId auth →
  let e := newEvent env sessionId auth v in
  let db' := (createEvent (V := V) env sessionId db auth (JoiValue v)).2 in
  (Env.freshId env, e) ∈ ownedMatches db' auth
  ∧ getEvent db' (Env.freshId env) other
    = (mkResponse 200 (EventBody (Env.freshId env) e), db')
  ∧ ((Env.freshId env, e) ∈ publicMatches db' other
     ↔ EventValue.isPublic v = Some true).
Proof.
  intros Hst Hne e db'. unfold db'.
  destruct (createEvent_inv (V := V) env sessionId db auth (JoiValue v))
    as [[Hno _]|(v' & [= <-] & _ & _ & _ & ->)]; [done|].
  simpl. fold e. split; [|split].
  - apply ownedMatches_elem_of. simpl. by rewrite lookup_insert_eq.
  - unfold getEvent. by rewrite lookup_insert_eq.
  - rewrite publicMatches_elem_of. simpl. rewrite lookup_insert_eq.
    destruct (EventValue.isPublic v) as [[]|]; simpl; split; try done;
      by intros (_ & ? & _).
Qed.

Lemma created_event_is_listed_witness :
  create_status (createEvent (V := JsValue) (Env.mk 1700000000000 2)
                   (sessionIdsFrom 900) db0 alice (JoiValue launch)).1 = 201
  ∧ Auth.userId bob ≠ Auth.userId alice
  ∧ EventValue.isPublic launch = Some true
  ∧ (2%N, newEvent (Env.mk 1700000000000 2) (sessionIdsFrom 900) alice launch)
    ∈ publicMatches
        (createEvent (V := JsValue) (Env.mk 1700000000000 2) (sessionIdsFrom 900)
           db0 alice (JoiValue launch)).2 bob.
Proof.
  assert (H1 : create_status
                 (createEvent (V := JsValue) (Env.mk 1700000000000 2)
                    (sessionIdsFrom 900) db0 alice (JoiValue launch)).1 = 201)
    by reflexivity.
  assert (H2 : Auth.userId bob ≠ Auth.userId alice) by discriminate.
  assert (H3 : EventValue.isPublic launch = Some true) by reflexivity.
  refine (conj H1 (conj H2 (conj H3 _))).
  exact (proj2 (proj2 (proj2 (created_event_is_listed (V := JsValue)
                  (Env.mk 1700000000000 2) (sessionIdsFrom 900) db0 alice launch
                  bob H1 H2))) H3).
Defined.

(** Right after a 201 the creator is the organizer: another caller is
    refused by the add-session handler (403) and by the update handler
    (404), both leaving the store alone, while the creator's update with
    an empty body is answered 200. *)
Theorem created_event_belongs_to_creator {V} dp env env2 sessionId (db : Store)
    auth v other b up :
  create_status (createEvent (V := V) env sessionId db auth (JoiValue v)).1 = 201 →
  Auth.userId other ≠ Auth.userId auth →
  let db' := (createEvent (V := V) env sessionId db auth (JoiValue v)).2 in
  addSession dp env2 db' (Env.freshId env) other b
  = (mkResponse 403 (ErrorBody "Not authorized to modify this event"), db')
  ∧ updateEvent dp env2 db' (Env.freshId env) other up
    = (mkResponse 404 (ErrorBody "Event not found or not authorized"), db')
  ∧ status (updateEvent dp env2 db' (Env.freshId env) auth noEventPatch).1 = 200.
Proof.
  intros Hst Hne db'. unfold db'.
  destruct (createEvent_inv (V := V) env sessionId db auth (JoiValue v))
    as [[Hno _]|(v' & [= <-] & _ & Hv & _ & ->)]; [done|].
  simpl. unfold addSession, updateEvent, findByIdAndUpdate.
  rewrite !lookup_insert_eq. simpl.
  rewrite (bool_decide_eq_true_2 (Auth.userId auth ≠ Auth.userId other))
    by (intros Heq; by apply Hne).
  rewrite (bool_decide_eq_false_2 (Auth.userId auth = Auth.userId other))
    by (intros Heq; by apply Hne).
  split; [done|]. split; [done|].
  rewrite bool_decide_eq_true_2 by done.
  unfold applyPatch, noEventPatch. simpl.
  set (e' := Event.mk _ _ _ _ _ _ _ _ _ _ _ _ _ _ _ _ _).
  assert (validate e' = true) as -> by exact Hv.
  done.
Qed.

Lemma created_event_belongs_to_creator_witness :
  create_status (createEvent (V := JsValue) (Env.mk 1700000000000 2)
                   (sessionIdsFrom 900) db0 alice (JoiValue launch)).1 = 201
  ∧ Auth.userId bob ≠ Auth.userId alice
  ∧ addSession sampleParse env0
      (createEvent (V := JsValue) (Env.mk 1700000000000 2) (sessionIdsFrom 900)
         db0 alice (JoiValue launch)).2 2 bob backwards
    = (mkResponse 403 (ErrorBody "Not authorized to modify this event"),
       (createEvent (V := JsValue) (Env.mk 1700000000000 2) (sessionIdsFrom 900)
          db0 alice (JoiValue launch)).2).
Proof.
  assert (H1 : create_status
                 (createEvent (V := JsValue) (Env.mk 1700000000000 2)
                    (sessionIdsFrom 900) db0 alice (JoiValue launch)).1 = 201)
    by reflexivity.
  assert (H2 : Auth.userId bob ≠ Auth.userId alice) by discriminate.
  refine (conj H1 (conj H2 _)).
  exact (proj1 (created_event_belongs_to_creator (V := JsValue) sampleParse
                  (Env.mk 1700000000000 2) env0 (sessionIdsFrom 900) db0 alice
                  launch bob backwards noEventPatch H1 H2)).
Defined.

(** ** The store invariant, for every route that writes *)

(** If every stored document passes the validators of the schema, so does
    every stored document after any of the eight routes that write:
    create, update, delete, join, leave, and the three session routes. *)
Theorem store_stays_valid {V} dp env sessionId (db : Store) id sid auth
    (r : JoiResult V) b u up :
  validStore db →
  validStore (createEvent env sessionId db auth r).2
  ∧ validStore (updateEvent dp env db id auth up).2
  ∧ validStore (deleteEvent db id auth).2
  ∧ validStore (joinEvent env db id auth).2
  ∧ validStore (leaveEvent env db id auth).2
  ∧ validStore (addSession dp env db id auth b).2
  ∧ validStore (updateSession dp env db sid auth u).2
  ∧ validStore (removeSession env db sid auth).2.
Proof.
  intros Hdb.
  destruct (handlers_keep_store_valid dp env db id sid auth b u up Hdb)
    as (Hj & Hl & Hd & Ha & Hu & Hr & He).
  split; [|done].
  destruct (createEvent_inv env sessionId db auth r)
    as [[_ ->]|(v & -> & _ & Hv & _ & ->)]; [done|].
  by apply map_Forall_insert_2.
Qed.

Lemma store_stays_valid_witness :
  validStore db0
  ∧ validStore (createEvent (V := JsValue) (Env.mk 1700000000000 2)
                  (sessionIdsFrom 900) db0 alice (JoiValue launch)).2
  ∧ validStore (joinEvent env0 db0 1 bob).2.
Proof.
  assert (H : validStore db0).
  { unfold validStore, db0. by apply map_Forall_singleton. }
  pose proof (store_stays_valid (V := JsValue) sampleParse
                (Env.mk 1700000000000 2) (sessionIdsFrom 900) db0 1%N 7%N alice
                (JoiValue launch) backwards noSessionPatch noEventPatch H)
    as (Hc & _).
  pose proof (store_stays_valid (V := JsValue) sampleParse env0
                (sessionIdsFrom 900) db0 1%N 7%N bob (JoiValue launch) backwards
                noSessionPatch noEventPatch H)
    as (_ & _ & _ & Hj & _).
  exact (conj H (conj Hc Hj)).
Defined.
